(** * external-dns: source helpers, controller start-up, NS1 retry and the planner

    A shallow embedding of the parts of external-dns that its design
    document makes promises about, followed by the proofs of those promises.

    - [gostrings]: the functions of Go's [strings] package the code calls.
    - [netip]: [net.IP] values with [To4] and [To16].
    - [endpoint]: the endpoint record shared by all packages.
    - [source]: source/source.go (target annotation, [suitableType],
      [endpointsForHostname], [eventHandlerFunc]).
    - [controller]: controller/execute.go ([buildProvider],
      [selectRegistry], [buildController], [Execute]).
    - [ns1]: the NS1 provider's record builder and retry wrapper together
      with the mock client of its test file.
    - [plan]: the diff-and-policy planner.

    Definitions come first, theorems after them. *)

From Stdlib Require Import ZArith String Ascii List Bool Lia.
From stdpp Require Import base option list gmap strings.

Local Open Scope string_scope.
Local Open Scope list_scope.

(* ===================================================================== *)
(** ** Go's [strings] package *)
(* ===================================================================== *)

Module gostrings.

(** [len(s)] *)
Definition len (s : string) : nat := String.length s.

(** [strings.HasPrefix(s, prefix)] *)
Fixpoint HasPrefix (s prefix : string) : bool :=
  match prefix, s with
  | EmptyString, _ => true
  | String _ _, EmptyString => false
  | String p prefix', String c s' => Ascii.eqb c p && HasPrefix s' prefix'
  end.

(** [strings.HasSuffix(s, suffix)]:
    [len(s) >= len(suffix) && s[len(s)-len(suffix):] == suffix] *)
Definition HasSuffix (s suffix : string) : bool :=
  (len suffix <=? len s)%nat
  && String.eqb (substring (len s - len suffix) (len suffix) s) suffix.

(** [strings.TrimSuffix(s, suffix)]: [s[:len(s)-len(suffix)]] when [s] ends
    with [suffix], [s] itself otherwise. *)
Definition TrimSuffix (s suffix : string) : string :=
  if HasSuffix s suffix then substring 0 (len s - len suffix) s else s.

(** [strings.Replace(s, old, new, -1)] for a non-empty [old]: every
    non-overlapping occurrence of [old], found left to right, becomes [new].
    [skip] counts the bytes of a matched occurrence still to be passed. *)
Fixpoint replace_from (old new : string) (skip : nat) (s : string) : string :=
  match s with
  | EmptyString => EmptyString
  | String c s' =>
      match skip with
      | S k => replace_from old new k s'
      | O =>
          if HasPrefix s old
          then new +:+ replace_from old new (len old - 1) s'
          else String c (replace_from old new 0 s')
      end
  end.

Definition ReplaceAll (s old new : string) : string := replace_from old new 0 s.

(** [strings.Split(s, sep)] for a non-empty [sep]: the substrings between
    the occurrences of [sep]; a string without [sep] (the empty string
    too) gives a one-element slice. [cur] is the current piece, reversed. *)
Fixpoint split_from (sep : string) (skip : nat) (cur : list ascii) (s : string)
  : list string :=
  match s with
  | EmptyString => [string_of_list_ascii (rev cur)]
  | String c s' =>
      match skip with
      | S k => split_from sep k cur s'
      | O =>
          if HasPrefix s sep
          then string_of_list_ascii (rev cur) :: split_from sep (len sep - 1) [] s'
          else split_from sep 0 (c :: cur) s'
      end
  end.

Definition Split (s sep : string) : list string := split_from sep 0 [] s.

(** ASCII lower-casing, as [strings.ToLower] does on ASCII input. *)
Definition lower_ascii (c : ascii) : ascii :=
  let n := nat_of_ascii c in
  if ((65 <=? n) && (n <=? 90))%nat then ascii_of_nat (n + 32) else c.

Fixpoint ToLower (s : string) : string :=
  match s with
  | EmptyString => EmptyString
  | String c s' => String (lower_ascii c) (ToLower s')
  end.

(** [strings.TrimPrefix(s, prefix)]: [s[len(prefix):]] when [s] starts
    with [prefix], [s] itself otherwise. *)
Definition TrimPrefix (s prefix : string) : string :=
  if HasPrefix s prefix
  then substring (len prefix) (len s - len prefix) s
  else s.

(** [strings.Join(elems, sep)] *)
Fixpoint Join (elems : list string) (sep : string) : string :=
  match elems with
  | [] => ""
  | [x] => x
  | x :: rest => x +:+ sep +:+ Join rest sep
  end.

(** The bytes of a string. *)
Definition bytes (s : string) : list ascii := list_ascii_of_string s.

End gostrings.

(* ===================================================================== *)
(** ** [net.IP] *)
(* ===================================================================== *)

Module netip.

(** [type IP []byte] *)
Definition IP : Type := list Byte.byte.

Definition IPv4len : nat := 4.
Definition IPv6len : nat := 16.

Definition isZeros (p : list Byte.byte) : bool :=
  forallb (fun b => Byte.eqb b Byte.x00) p.

Definition byte_at (ip : IP) (i : nat) : Byte.byte := nth i ip Byte.x00.

(** [IPv4(a, b, c, d)]: the 16-byte form of an IPv4 address. *)
Definition IPv4 (a b c d : Byte.byte) : IP :=
  repeat Byte.x00 10 ++ [Byte.xff; Byte.xff; a; b; c; d].

(** [func (ip IP) To4() IP]; [None] is the nil slice. *)
Definition To4 (ip : IP) : option IP :=
  if (length ip =? IPv4len)%nat then Some ip
  else if (length ip =? IPv6len)%nat
          && isZeros (firstn 10 ip)
          && Byte.eqb (byte_at ip 10) Byte.xff
          && Byte.eqb (byte_at ip 11) Byte.xff
       then Some (firstn 4 (skipn 12 ip))
       else None.

(** [func (ip IP) To16() IP] *)
Definition To16 (ip : IP) : option IP :=
  if (length ip =? IPv4len)%nat
  then Some (IPv4 (byte_at ip 0) (byte_at ip 1) (byte_at ip 2) (byte_at ip 3))
  else if (length ip =? IPv6len)%nat then Some ip
  else None.

End netip.

(* ===================================================================== *)
(** ** package endpoint *)
(* ===================================================================== *)

Module endpoint.

(** The package's declarations are not part of the sources at hand. *)

(** Modelled from the spec: [endpoint.TTL], an optional TTL; the tests
    leave the field out for "not set", which is Go's zero. *)
Definition TTL : Type := Z.

(** Modelled from the spec: whether a TTL is set. *)
Definition IsConfigured (ttl : TTL) : bool := (0 <? ttl)%Z.

(** Modelled from the spec: a provider-specific property, with the field
    names of the struct literals in source/source.go. *)
Record ProviderSpecificProperty : Type := {
  Name : string;
  Value : string
}.

(** Modelled from the spec: [endpoint.Endpoint], with the fields of
    section 3 of the design under the names that the struct literals of
    source/source.go and of the NS1 tests give them. *)
Record Endpoint : Type := {
  DNSName : string;
  Targets : list string;
  RecordType : string;
  SetIdentifier : string;
  RecordTTL : TTL;
  Labels : gmap string string;
  ProviderSpecific : list ProviderSpecificProperty
}.

(** Modelled from the spec: the names of the record types. *)
Definition RecordTypeA : string := "A".
Definition RecordTypeAAAA : string := "AAAA".
Definition RecordTypeCNAME : string := "CNAME".

End endpoint.

(* ===================================================================== *)
(** ** package source (source/source.go) *)
(* ===================================================================== *)

Module source.
Import gostrings netip endpoint.

Section Source.

(** What source.go takes from elsewhere: [net.ParseIP] ([None] is nil),
    the repository's [isIPv6String], the annotation key
    [annotations.TargetKey] and the label map of [endpoint.NewLabels()]. *)
Context (ParseIP : string -> option IP).
Context (isIPv6String : string -> bool).
Context (targetAnnotationKey : string).
Context (NewLabels : gmap string string).

(** [getTargetsFromTargetAnnotation]: the loop appends the trimmed pieces
    in order; the nil slice of the other branch is the empty list. *)
Definition getTargetsFromTargetAnnotation (annotations : gmap string string)
  : list string :=
  match annotations !! targetAnnotationKey with
  | Some targetAnnotation =>
      if negb (String.eqb targetAnnotation "")
      then
        let targetsList := Split (ReplaceAll targetAnnotation " " "") "," in
        fold_left
          (fun targets targetHostname =>
             targets ++ [TrimSuffix targetHostname "."])
          targetsList []
      else []
  | None => []
  end.

(** [suitableType] *)
Definition suitableType (target : string) : string :=
  if bool_decide (is_Some (ParseIP target))
     && bool_decide (is_Some (ParseIP target ≫= To4))
  then RecordTypeA
  else if bool_decide (is_Some (ParseIP target))
          && bool_decide (is_Some (ParseIP target ≫= To16))
  then RecordTypeAAAA
  else RecordTypeCNAME.

(** The three target slices the loop of [endpointsForHostname] fills. *)
Record buckets : Type := {
  aTargets : list string;
  aaaaTargets : list string;
  cnameTargets : list string
}.

(** One iteration of the loop: the [switch] on [suitableType(t)]; a
    [continue] leaves the slices as they are. *)
Definition classify (b : buckets) (t : string) : buckets :=
  let ty := suitableType t in
  if String.eqb ty RecordTypeA then
    if isIPv6String t then b
    else {| aTargets := aTargets b ++ [t];
            aaaaTargets := aaaaTargets b;
            cnameTargets := cnameTargets b |}
  else if String.eqb ty RecordTypeAAAA then
    if negb (isIPv6String t) then b
    else {| aTargets := aTargets b;
            aaaaTargets := aaaaTargets b ++ [t];
            cnameTargets := cnameTargets b |}
  else {| aTargets := aTargets b;
          aaaaTargets := aaaaTargets b;
          cnameTargets := cnameTargets b ++ [t] |}.

(** Which slice a target ends up in, read off [classify]. *)
Definition goes_to_a (t : string) : bool :=
  String.eqb (suitableType t) RecordTypeA && negb (isIPv6String t).

Definition goes_to_aaaa (t : string) : bool :=
  negb (String.eqb (suitableType t) RecordTypeA)
  && String.eqb (suitableType t) RecordTypeAAAA && isIPv6String t.

Definition goes_to_cname (t : string) : bool :=
  negb (String.eqb (suitableType t) RecordTypeA)
  && negb (String.eqb (suitableType t) RecordTypeAAAA).

(** [endpointsForHostname] *)
Definition endpointsForHostname (hostname : string) (targets : list string)
    (ttl : TTL) (providerSpecific : list ProviderSpecificProperty)
    (setIdentifier : string) : list Endpoint :=
  let b := fold_left classify targets
             {| aTargets := []; aaaaTargets := []; cnameTargets := [] |} in
  let mk (ts : list string) (ty : string) : Endpoint :=
    {| DNSName := TrimSuffix hostname ".";
       Targets := ts;
       RecordTTL := ttl;
       RecordType := ty;
       Labels := NewLabels;
       ProviderSpecific := providerSpecific;
       SetIdentifier := setIdentifier |} in
  let endpoints := [] in
  let endpoints :=
    if (0 <? length (aTargets b))%nat
    then endpoints ++ [mk (aTargets b) RecordTypeA] else endpoints in
  let endpoints :=
    if (0 <? length (aaaaTargets b))%nat
    then endpoints ++ [mk (aaaaTargets b) RecordTypeAAAA] else endpoints in
  let endpoints :=
    if (0 <? length (cnameTargets b))%nat
    then endpoints ++ [mk (cnameTargets b) RecordTypeCNAME] else endpoints in
  endpoints.

(** The targets that the loop of [endpointsForHostname] passes over with
    [continue]: suitable type A with an IPv6 string form, or suitable
    type AAAA without one. *)
Definition dropped (t : string) : bool :=
  (String.eqb (suitableType t) RecordTypeA && isIPv6String t)
  || (String.eqb (suitableType t) RecordTypeAAAA && negb (isIPv6String t)).

End Source.

Section Annotations.

(** The annotation keys that source.go takes from package annotations. *)
Context (accessAnnotationKey endpointsTypeAnnotationKey : string).
Context (internalHostnameAnnotationKey aliasAnnotationKey : string).

(** Provider-specific annotations *)
Definition CloudflareProxiedKey : string :=
  "external-dns.alpha.kubernetes.io/cloudflare-proxied".

Definition SetIdentifierKey : string :=
  "external-dns.alpha.kubernetes.io/set-identifier".

Definition AwsLoadBalancerTypeAnnotation : string :=
  "service.beta.kubernetes.io/aws-load-balancer-type".

(** [getAccessFromAnnotations]; indexing a Go map with a key it does not
    hold gives the empty string. *)
Definition getAccessFromAnnotations (input : gmap string string) : string :=
  default "" (input !! accessAnnotationKey).

(** [getEndpointsTypeFromAnnotations] *)
Definition getEndpointsTypeFromAnnotations (annotations : gmap string string)
  : string :=
  default "" (annotations !! endpointsTypeAnnotationKey).

(** [splitHostnameAnnotation] *)
Definition splitHostnameAnnotation (annotation : string) : list string :=
  Split (ReplaceAll annotation " " "") ",".

(** [getInternalHostnamesFromAnnotations] *)
Definition getInternalHostnamesFromAnnotations (annotations : gmap string string)
  : list string :=
  match annotations !! internalHostnameAnnotationKey with
  | None => []
  | Some internalHostnameAnnotation =>
      splitHostnameAnnotation internalHostnameAnnotation
  end.

(** [getAliasFromAnnotations] *)
Definition getAliasFromAnnotations (annotations : gmap string string) : bool :=
  match annotations !! aliasAnnotationKey with
  | Some aliasAnnotation => String.eqb aliasAnnotation "true"
  | None => false
  end.

(** The three appends of [getProviderSpecificAnnotations] ahead of its
    loop. *)
Definition fixed_properties (annotations : gmap string string)
  : list ProviderSpecificProperty :=
  let providerSpecificAnnotations := [] in
  let providerSpecificAnnotations :=
    match annotations !! CloudflareProxiedKey with
    | Some v => providerSpecificAnnotations
                  ++ [{| Name := CloudflareProxiedKey; Value := v |}]
    | None => providerSpecificAnnotations
    end in
  let providerSpecificAnnotations :=
    match annotations !! AwsLoadBalancerTypeAnnotation with
    | Some v => providerSpecificAnnotations
                  ++ [{| Name := AwsLoadBalancerTypeAnnotation; Value := v |}]
    | None => providerSpecificAnnotations
    end in
  if getAliasFromAnnotations annotations
  then providerSpecificAnnotations ++ [{| Name := "alias"; Value := "true" |}]
  else providerSpecificAnnotations.

(** One iteration of the loop [for k, v := range annotations]. *)
Definition visit (acc : list ProviderSpecificProperty * string)
    (kv : string * string) : list ProviderSpecificProperty * string :=
  let '(providerSpecificAnnotations, setIdentifier) := acc in
  let '(k, v) := kv in
  if String.eqb k SetIdentifierKey then (providerSpecificAnnotations, v)
  else if HasPrefix k "external-dns.alpha.kubernetes.io/aws-" then
    let attr := TrimPrefix k "external-dns.alpha.kubernetes.io/aws-" in
    (providerSpecificAnnotations ++ [{| Name := "aws/" +:+ attr; Value := v |}],
     setIdentifier)
  else if HasPrefix k "external-dns.alpha.kubernetes.io/scw-" then
    let attr := TrimPrefix k "external-dns.alpha.kubernetes.io/scw-" in
    (providerSpecificAnnotations ++ [{| Name := "scw/" +:+ attr; Value := v |}],
     setIdentifier)
  else if HasPrefix k "external-dns.alpha.kubernetes.io/ibmcloud-" then
    let attr := TrimPrefix k "external-dns.alpha.kubernetes.io/ibmcloud-" in
    (providerSpecificAnnotations
       ++ [{| Name := "ibmcloud-" +:+ attr; Value := v |}],
     setIdentifier)
  else acc.

(** [getProviderSpecificAnnotations], with the order in which the [range]
    over the map visits its entries: Go leaves that order open, and
    [visited] is any arrangement of the entries of [annotations]. *)
Definition getProviderSpecificAnnotations_in (visited : list (string * string))
    (annotations : gmap string string)
  : list ProviderSpecificProperty * string :=
  fold_left visit visited (fixed_properties annotations, "").

(** [getProviderSpecificAnnotations] on one such order. *)
Definition getProviderSpecificAnnotations (annotations : gmap string string)
  : list ProviderSpecificProperty * string :=
  getProviderSpecificAnnotations_in (map_to_list annotations) annotations.

(** What one entry of the map adds to the properties in the loop. *)
Definition property_of (kv : string * string) : list ProviderSpecificProperty :=
  fst (visit ([], "") kv).

End Annotations.

(** [type eventHandlerFunc func()]. A Go [func()] receives nothing and
    returns nothing: all it can do is act on the program state [St]. The
    informer hands the handler its objects (of type [Obj]); the methods
    below are the three of [cache.ResourceEventHandler]. *)
Section EventHandler.

Context {St Obj : Type}.

Definition eventHandlerFunc : Type := St -> St.

Definition OnAdd (fn : eventHandlerFunc) (obj : Obj) (isInInitialList : bool)
  : St -> St := fun st => fn st.

Definition OnUpdate (fn : eventHandlerFunc) (oldObj newObj : Obj)
  : St -> St := fun st => fn st.

Definition OnDelete (fn : eventHandlerFunc) (obj : Obj)
  : St -> St := fun st => fn st.

(** What an informer observes. *)
Inductive event : Type :=
  | Added (obj : Obj) (isInInitialList : bool)
  | Updated (oldObj newObj : Obj)
  | Deleted (obj : Obj).

(** The informer's dispatch of one event to a registered handler. *)
Definition deliver (fn : eventHandlerFunc) (ev : event) : St -> St :=
  match ev with
  | Added obj initial => OnAdd fn obj initial
  | Updated oldObj newObj => OnUpdate fn oldObj newObj
  | Deleted obj => OnDelete fn obj
  end.

Definition deliver_all (fn : eventHandlerFunc) (evs : list event) (st : St) : St :=
  fold_left (fun s ev => deliver fn ev s) evs st.

End EventHandler.

End source.

(* ===================================================================== *)
(** ** package plan *)
(* ===================================================================== *)

Module plan.
Import gostrings endpoint.

(** The package is outside the sources at hand: controller/execute.go
    indexes its table of policies, and the design document describes its
    planner. *)

(** Modelled from the spec: [plan.Policy], the choice of the planned
    operations that may reach the provider. *)
Inductive Policy : Type :=
  | SyncPolicy
  | UpsertOnlyPolicy
  | CreateOnlyPolicy.

(** Modelled from the spec: the table [plan.Policies], which
    controller/execute.go indexes and which is declared in package plan.
    Its keys are the three recognised policy names. *)
Definition Policies : gmap string Policy :=
  <["sync" := SyncPolicy]>
    (<["upsert-only" := UpsertOnlyPolicy]>
       (<["create-only" := CreateOnlyPolicy]> ∅)).

(** Modelled from the spec: [plan.Changes], four sequences of endpoints;
    [UpdateOld] and [UpdateNew] correspond index by index. *)
Record Changes : Type := {
  Create : list Endpoint;
  UpdateOld : list Endpoint;
  UpdateNew : list Endpoint;
  Delete : list Endpoint
}.

(** The empty set of changes. *)
Definition no_changes : Changes :=
  {| Create := []; UpdateOld := []; UpdateNew := []; Delete := [] |}.

(** Modelled from the spec: the key of an endpoint in the planner's
    indexes, (normalised DNS name, record type, set identifier); names are
    compared without regard to case and without their trailing dot. *)
Definition normalize (name : string) : string := TrimSuffix (ToLower name) ".".

(** Modelled from the spec: the keys of the planner's indexes. *)
Definition key : Type := (string * string * string)%type.

(** Modelled from the spec: the key of an endpoint. *)
Definition endpointKey (e : Endpoint) : key :=
  (normalize (DNSName e), RecordType e, SetIdentifier e).

(** Modelled from the spec: whether an endpoint has a given key. *)
Definition has_key (k : key) (e : Endpoint) : bool :=
  bool_decide (endpointKey e = k).

(** Modelled from the spec: the entry of an index under a key; of several
    endpoints with one key the first in input order is the entry. *)
Definition byKey (k : key) (l : list Endpoint) : option Endpoint :=
  List.find (has_key k) l.

(** Modelled from the spec: the entries of the index of [l], in input
    order (step 1; the first occurrence of a key wins, step 5). *)
Fixpoint index (l : list Endpoint) : list Endpoint :=
  match l with
  | [] => []
  | e :: l' => e :: List.filter (fun x => negb (has_key (endpointKey e) x)) (index l')
  end.

(** Modelled from the spec: the provider-specific properties of an
    endpoint as the mapping they stand for. *)
Definition property_map (e : Endpoint) : gmap string string :=
  list_to_map (map (fun p => (Name p, Value p)) (ProviderSpecific e)).

(** Modelled from the spec: the new side of an update is the desired
    endpoint with the labels of the current one (the registry's) merged
    in; where both have a label the current value stays. *)
Definition merged (current desired : Endpoint) : Endpoint :=
  {| DNSName := DNSName desired;
     Targets := Targets desired;
     RecordType := RecordType desired;
     SetIdentifier := SetIdentifier desired;
     RecordTTL := RecordTTL desired;
     Labels := Labels current ∪ Labels desired;
     ProviderSpecific := ProviderSpecific desired |}.

(** Modelled from the spec: two endpoints differ materially when their
    target sets, TTLs, provider-specific properties or labels do (step 3
    compares the four). *)
Definition differs (a b : Endpoint) : bool :=
  negb (bool_decide
          (list_to_set (Targets a) =@{gset string} list_to_set (Targets b)))
  || negb (RecordTTL a =? RecordTTL b)%Z
  || negb (bool_decide (property_map a = property_map b))
  || negb (bool_decide (Labels a = Labels b)).

Section Plan.

(** The inputs besides the two endpoint lists and the policy: the
    ownership predicate that the registry supplies, the managed and the
    excluded record types, and the domain filter (on DNS names). *)
Context (owns : Endpoint -> bool).
Context (ManagedRecords ExcludeRecords : list string).
Context (domainFilter : string -> bool).

(** Modelled from the spec: the managed and excluded record-type
    filters. *)
Definition type_managed (e : Endpoint) : bool :=
  bool_decide (RecordType e ∈ ManagedRecords)
  && negb (bool_decide (RecordType e ∈ ExcludeRecords)).

(** Modelled from the spec: step 2, the desired keys absent from
    current. *)
Definition create_candidates (current desired : list Endpoint) : list Endpoint :=
  List.filter (fun d => negb (bool_decide (is_Some (byKey (endpointKey d) current))))
    (index desired).

(** Modelled from the spec: step 3, for a key on both sides the current
    endpoint is compared with the desired one; when they differ materially
    the candidate is the pair (current, desired with the current labels
    merged in). *)
Definition update_candidate (current : list Endpoint) (d : Endpoint)
  : option (Endpoint * Endpoint) :=
  match byKey (endpointKey d) current with
  | Some c => if differs c d then Some (c, merged c d) else None
  | None => None
  end.

(** Modelled from the spec: step 3 over the index of desired. *)
Definition update_candidates (current desired : list Endpoint)
  : list (Endpoint * Endpoint) :=
  omap (update_candidate current) (index desired).

(** Modelled from the spec: step 4, the current keys absent from
    desired, when owned by this instance and let through by the type
    filters and the domain filter. *)
Definition delete_candidates (current desired : list Endpoint) : list Endpoint :=
  List.filter (fun c => negb (bool_decide (is_Some (byKey (endpointKey c) desired)))
                   && owns c && type_managed c && domainFilter (DNSName c))
    (index current).

(** Modelled from the spec: step 6, a create whose key another instance
    owns is dropped. *)
Definition owned_creates (current : list Endpoint) (cs : list Endpoint)
  : list Endpoint :=
  List.filter (fun d => match byKey (endpointKey d) current with
                   | Some c => owns c
                   | None => true
                   end) cs.

(** Modelled from the spec: step 6, an update of a record that this
    instance does not own is dropped. *)
Definition owned_updates (us : list (Endpoint * Endpoint))
  : list (Endpoint * Endpoint) :=
  List.filter (fun u => owns (fst u)) us.

(** Modelled from the spec: step 6, a delete of a record that this
    instance does not own is dropped. *)
Definition owned_deletes (ds : list Endpoint) : list Endpoint :=
  List.filter owns ds.

(** Modelled from the spec: the new side of the update that the steps 3
    and 6 together leave for a desired endpoint, if they leave one. *)
Definition update_written (current : list Endpoint) (d : Endpoint)
  : option Endpoint :=
  match byKey (endpointKey d) current with
  | Some c => if differs c d && owns c then Some (merged c d) else None
  | None => None
  end.

(** Modelled from the spec: step 7, the policy: [sync] lets all changes
    through, [upsert-only] no deletes, [create-only] creates only. *)
Definition apply_policy (policy : Policy) (ch : Changes) : Changes :=
  match policy with
  | SyncPolicy => ch
  | UpsertOnlyPolicy =>
      {| Create := Create ch; UpdateOld := UpdateOld ch;
         UpdateNew := UpdateNew ch; Delete := [] |}
  | CreateOnlyPolicy =>
      {| Create := Create ch; UpdateOld := []; UpdateNew := []; Delete := [] |}
  end.

(** Modelled from the spec: the planner (section 4.1 of the design),
    steps 1 to 7; the order of the result is the input order of the
    indexes. *)
Definition Calculate (policy : Policy) (current desired : list Endpoint)
  : Changes :=
  let updates := owned_updates (update_candidates current desired) in
  apply_policy policy
    {| Create := owned_creates current (create_candidates current desired);
       UpdateOld := map fst updates;
       UpdateNew := map snd updates;
       Delete := owned_deletes (delete_candidates current desired) |}.

End Plan.

(** Modelled from the spec: the record that an applied update leaves in
    the place of a current one, the new side of the update under its key. *)
Definition updated_by (ch : Changes) (c : Endpoint) : Endpoint :=
  match byKey (endpointKey c) (UpdateNew ch) with
  | Some n => n
  | None => c
  end.

(** Modelled from the spec: whether the applied changes delete a current
    record. *)
Definition deleted_by (ch : Changes) (c : Endpoint) : bool :=
  bool_decide (is_Some (byKey (endpointKey c) (Delete ch))).

(** Modelled from the spec: what current becomes when a provider applies
    the changes with success. The records under a deleted key go, the
    record under an updated key becomes the new side of its update, and
    the created records are added. *)
Definition apply (ch : Changes) (current : list Endpoint) : list Endpoint :=
  List.filter (fun c => negb (deleted_by ch c)) (map (updated_by ch) current)
  ++ Create ch.

End plan.

(* ===================================================================== *)
(** ** package controller (controller/execute.go) *)
(* ===================================================================== *)

Module externaldns.

(** The fields of [externaldns.Config] that execute.go reads outside the
    argument lists of the provider constructors. *)
Record Config : Type := {
  Provider : string;
  Registry : string;
  Policy : string;
  LogLevel : string;
  WebhookServer : bool;
  Once : bool;
  UpdateEvents : bool;
  ProviderCacheTime : Z;
  Interval : Z;
  MinEventSyncInterval : Z;
  ManagedDNSRecordTypes : list string;
  ExcludeDNSRecordTypes : list string;
  TXTOwnerID : string;
  TXTPrefix : string;
  TXTSuffix : string;
  TXTWildcardReplacement : string;
  TXTCacheInterval : Z;
  TXTEncryptEnabled : bool;
  TXTEncryptAESKey : string;
  AWSDynamoDBRegion : string;
  AWSDynamoDBTable : string;
  RegexDomainFilter : option string;
  RegexDomainExclusion : option string;
  DomainFilter : list string;
  ExcludeDomains : list string;
  OCIAuthInstancePrincipal : bool;
  OCICompartmentOCID : string;
  OCIConfigFile : string;
  OCIZoneCacheDuration : Z
}.

(** [cfg.Registry = r] on the configuration that [cfg] points to. *)
Definition set_Registry (r : string) (cfg : Config) : Config :=
  {| Provider := Provider cfg; Registry := r; Policy := Policy cfg;
     LogLevel := LogLevel cfg; WebhookServer := WebhookServer cfg;
     Once := Once cfg; UpdateEvents := UpdateEvents cfg;
     ProviderCacheTime := ProviderCacheTime cfg; Interval := Interval cfg;
     MinEventSyncInterval := MinEventSyncInterval cfg;
     ManagedDNSRecordTypes := ManagedDNSRecordTypes cfg;
     ExcludeDNSRecordTypes := ExcludeDNSRecordTypes cfg;
     TXTOwnerID := TXTOwnerID cfg; TXTPrefix := TXTPrefix cfg;
     TXTSuffix := TXTSuffix cfg;
     TXTWildcardReplacement := TXTWildcardReplacement cfg;
     TXTCacheInterval := TXTCacheInterval cfg;
     TXTEncryptEnabled := TXTEncryptEnabled cfg;
     TXTEncryptAESKey := TXTEncryptAESKey cfg;
     AWSDynamoDBRegion := AWSDynamoDBRegion cfg;
     AWSDynamoDBTable := AWSDynamoDBTable cfg;
     RegexDomainFilter := RegexDomainFilter cfg;
     RegexDomainExclusion := RegexDomainExclusion cfg;
     DomainFilter := DomainFilter cfg; ExcludeDomains := ExcludeDomains cfg;
     OCIAuthInstancePrincipal := OCIAuthInstancePrincipal cfg;
     OCICompartmentOCID := OCICompartmentOCID cfg;
     OCIConfigFile := OCIConfigFile cfg;
     OCIZoneCacheDuration := OCIZoneCacheDuration cfg |}.

End externaldns.

Module controller.
Import plan externaldns.

(** A Go [error] value is its message; [None] is nil. *)
Definition error : Type := string.

(** A call either returns or ends the process in [log.Fatal]/[log.Fatalf]. *)
Inductive result (A : Type) : Type :=
  | Returns (a : A)
  | Fatal (msg : string).
Arguments Returns {A} a.
Arguments Fatal {A} msg.

(** A call either completes or stops the program in a run-time panic. *)
Inductive completion (A : Type) : Type :=
  | Completes (a : A)
  | Panics (msg : string).
Arguments Completes {A} a.
Arguments Panics {A} msg.

(** The provider names of the [switch] in [buildProvider] whose case body
    only passes fields of [cfg] to the backend's constructor. *)
Definition constructed_providers : list string :=
  [ "akamai"; "alibabacloud"; "aws"; "azure-dns"; "azure"; "azure-private-dns";
    "civo"; "cloudflare"; "google"; "digitalocean"; "ovh"; "linode";
    "dnsimple"; "coredns"; "skydns"; "exoscale"; "pdns"; "rfc2136";
    "ns1"; "transip"; "scaleway"; "godaddy"; "gandi"; "pihole"; "plural";
    "webhook" ].

Section Controller.

(** The collaborators of execute.go. [ProviderT], [SourceT], [RegistryT]
    and [Filter] are the values behind [provider.Provider],
    [source.Source], [registry.Registry] and [*endpoint.DomainFilter]; an
    [option] of them is a Go value that may be nil. *)
Context {ProviderT SourceT RegistryT Filter OCIConfigT : Type}.

(** [newProvider name cfg domainFilter]: the body of the case [name] of
    [buildProvider]'s switch, that is the backend's constructor applied to
    the fields of [cfg] the case lists, with its [(p, err)]. *)
Context (newProvider : string -> Config -> Filter -> option ProviderT * option error).
Context (NewCachedProvider : ProviderT -> Z -> ProviderT).

(** The OCI case prepares an [oci.OCIConfig] first: the literal for
    instance-principal authentication with a compartment, or what
    [oci.LoadOCIConfig] reads from a file (a pointer, nil-able, and an
    error); the zone cache duration is then stored in it. *)
Context (instancePrincipalConfig : string -> OCIConfigT).
Context (LoadOCIConfig : string -> option OCIConfigT * option error).
Context (setZoneCacheDuration : Z -> OCIConfigT -> OCIConfigT).
Context (NewOCIProvider : OCIConfigT -> Config -> Filter
                          -> option ProviderT * option error).

(** The case "oci" of the switch in [buildProvider]; storing the cache
    duration through a nil [config] panics. *)
Definition buildOCIProvider (cfg : Config) (domainFilter : Filter)
  : completion (option ProviderT * option error) :=
  let '(config, err) :=
    if OCIAuthInstancePrincipal cfg then
      if (String.length (OCICompartmentOCID cfg) =? 0)%nat
      then (None,
            Some "instance principal authentication requested, but no compartment OCID provided")
      else (Some (instancePrincipalConfig (OCICompartmentOCID cfg)), None)
    else LoadOCIConfig (OCIConfigFile cfg) in
  match config with
  | None => Panics "invalid memory address or nil pointer dereference"
  | Some config =>
      let config := setZoneCacheDuration (OCIZoneCacheDuration cfg) config in
      match err with
      | None => Completes (NewOCIProvider config cfg domainFilter)
      | Some err => Completes (None, Some err)
      end
  end.

(** The four registry constructors with the arguments [selectRegistry]
    gives them. *)
Inductive registry_call : Type :=
  | NewDynamoDBRegistry (p : option ProviderT) (ownerID region table prefix
      suffix wildcardReplacement : string) (managed excluded : list string)
      (aesKey : string) (cacheInterval : Z)
  | NewNoopRegistry (p : option ProviderT)
  | NewTXTRegistry (p : option ProviderT) (prefix suffix ownerID : string)
      (cacheInterval : Z) (wildcardReplacement : string)
      (managed excluded : list string) (encryptEnabled : bool) (aesKey : string)
  | NewAWSSDRegistry (p : option ProviderT) (ownerID : string).

Context (newRegistry : registry_call -> option RegistryT * option error).

(** [buildProvider]. [cfg] is a pointer: the configuration the function
    leaves behind is the first component of the result. *)
Definition buildProvider (cfg : Config) (domainFilter : Filter)
  : Config * completion (option ProviderT * option error) :=
  let '(cfg, switch) :=
    if String.eqb (Provider cfg) "aws-sd" then
      (* Check that only compatible Registry is used with AWS-SD *)
      let cfg :=
        if negb (String.eqb (Registry cfg) "noop")
           && negb (String.eqb (Registry cfg) "aws-sd")
        then set_Registry "aws-sd" cfg
        else cfg in
      (cfg, Completes (newProvider "aws-sd" cfg domainFilter))
    else if String.eqb (Provider cfg) "inmemory" then
      (cfg, Completes (fst (newProvider "inmemory" cfg domainFilter), None))
    else if String.eqb (Provider cfg) "oci" then
      (cfg, buildOCIProvider cfg domainFilter)
    else if bool_decide (Provider cfg ∈ constructed_providers) then
      (cfg, Completes (newProvider (Provider cfg) cfg domainFilter))
    else
      (cfg, Completes (None, Some ("unknown dns provider: " +:+ Provider cfg))) in
  match switch with
  | Panics msg => (cfg, Panics msg)
  | Completes (p, err) =>
      let p :=
        match p with
        | Some p' =>
            if (0 <? ProviderCacheTime cfg)%Z
            then Some (NewCachedProvider p' (ProviderCacheTime cfg))
            else p
        | None => p
        end in
      (cfg, Completes (p, err))
  end.

(** [selectRegistry] *)
Definition selectRegistry (cfg : Config) (p : option ProviderT)
  : result (option RegistryT * option error) :=
  if String.eqb (Registry cfg) "dynamodb" then
    Returns (newRegistry
      (NewDynamoDBRegistry p (TXTOwnerID cfg) (AWSDynamoDBRegion cfg)
         (AWSDynamoDBTable cfg) (TXTPrefix cfg) (TXTSuffix cfg)
         (TXTWildcardReplacement cfg) (ManagedDNSRecordTypes cfg)
         (ExcludeDNSRecordTypes cfg) (TXTEncryptAESKey cfg)
         (TXTCacheInterval cfg)))
  else if String.eqb (Registry cfg) "noop" then
    Returns (newRegistry (NewNoopRegistry p))
  else if String.eqb (Registry cfg) "txt" then
    Returns (newRegistry
      (NewTXTRegistry p (TXTPrefix cfg) (TXTSuffix cfg) (TXTOwnerID cfg)
         (TXTCacheInterval cfg) (TXTWildcardReplacement cfg)
         (ManagedDNSRecordTypes cfg) (ExcludeDNSRecordTypes cfg)
         (TXTEncryptEnabled cfg) (TXTEncryptAESKey cfg)))
  else if String.eqb (Registry cfg) "aws-sd" then
    Returns (newRegistry (NewAWSSDRegistry p (TXTOwnerID cfg)))
  else
    Fatal ("unknown registry: " +:+ Registry cfg).

(** [type Controller struct], with the fields [buildController] sets. *)
Record Controller : Type := {
  Source : option SourceT;
  Registry : option RegistryT;
  Policy : plan.Policy;
  Interval : Z;
  DomainFilter : Filter;
  ManagedRecordTypes : list string;
  ExcludeRecordTypes : list string;
  MinEventSyncInterval : Z
}.

(** [buildController]. It returns either [nil, err] or a controller and a
    nil error, hence the sum. *)
Definition buildController (cfg : Config) (src : option SourceT)
    (p : option ProviderT) (filter : Filter)
  : result (Controller + error) :=
  match Policies !! externaldns.Policy cfg with
  | None => Returns (inr ("unknown policy: " +:+ externaldns.Policy cfg))
  | Some policy =>
      match selectRegistry cfg p with
      | Fatal msg => Fatal msg
      | Returns (reg, Some err) => Returns (inr err)
      | Returns (reg, None) =>
          Returns
            (inl {| Source := src;
                     Registry := reg;
                     Policy := policy;
                     Interval := externaldns.Interval cfg;
                     DomainFilter := filter;
                     ManagedRecordTypes := ManagedDNSRecordTypes cfg;
                     ExcludeRecordTypes := ExcludeDNSRecordTypes cfg;
                     MinEventSyncInterval := externaldns.MinEventSyncInterval cfg |})
      end
  end.

(** [createDomainFilter]: RegexDomainFilter overrides DomainFilter. The
    regular expression is its pattern ([.String()]); [None] is nil. *)
Context (NewRegexDomainFilter : string -> option string -> Filter).
Context (NewDomainFilterWithExclusions : list string -> list string -> Filter).

Definition createDomainFilter (cfg : Config) : Filter :=
  match RegexDomainFilter cfg with
  | Some re =>
      if negb (String.eqb re "")
      then NewRegexDomainFilter re (RegexDomainExclusion cfg)
      else NewDomainFilterWithExclusions
             (externaldns.DomainFilter cfg) (ExcludeDomains cfg)
  | None =>
      NewDomainFilterWithExclusions
        (externaldns.DomainFilter cfg) (ExcludeDomains cfg)
  end.

(** [buildSource]: [source.ByNames] with the client generator made from
    [cfg], then the wrappers around the sources it returns. *)
Context (ByNames : Config -> list SourceT * option error).
Context (NewMultiSource : list SourceT -> Config -> SourceT).
Context (NewDedupSource : SourceT -> SourceT).
Context (NewNAT64Source : SourceT -> Config -> SourceT).
Context (NewTargetFilterSource : SourceT -> Config -> SourceT).

Definition buildSource (cfg : Config) : option SourceT * option error :=
  match ByNames cfg with
  | (_, Some err) => (None, Some err)
  | (sources, None) =>
      let combinedSource := NewDedupSource (NewMultiSource sources cfg) in
      let combinedSource := NewNAT64Source combinedSource cfg in
      let combinedSource := NewTargetFilterSource combinedSource cfg in
      (Some combinedSource, None)
  end.

(** [configureLogger]: fatal when the log level does not parse. *)
Context (ParseLevel : string -> option error).

Definition configureLogger (cfg : Config) : result unit :=
  match ParseLevel (LogLevel cfg) with
  | Some err => Fatal ("failed to parse log level: " +:+ err)
  | None => Returns tt
  end.

(** What [Execute] does to the world once start-up is through, in order,
    and how the process ends. The metrics server and the SIGTERM handler
    run as goroutines of their own and are not part of this sequence. *)
Inductive action : Type :=
  | StartHTTPApi (p : option ProviderT)
  | RunOnce (ctrl : Controller)
  | AddEventHandler (ctrl : Controller)
  | ScheduleRunOnce (ctrl : Controller)
  | Run (ctrl : Controller).

Inductive ending : Type :=
  | LogFatal (msg : string)
  | OsExit (code : Z)
  | Panicked (msg : string)
  | Return.

(** The actions of the reconciliation loop: everything but the webhook
    server. *)
Definition in_loop (a : action) : bool :=
  match a with
  | StartHTTPApi _ => false
  | RunOnce _ | AddEventHandler _ | ScheduleRunOnce _ | Run _ => true
  end.

Context (NewConfig : Config).
Context (ParseFlags : Config -> list string -> Config * option error).
Context (ValidateConfig : Config -> option error).
Context (runOnce : Controller -> option error).

(** [Execute], on the command line [args] ([os.Args[1:]]). *)
Definition Execute (args : list string) : list action * ending :=
  let cfg := NewConfig in
  match ParseFlags cfg args with
  | (_, Some err) => ([], LogFatal ("flag parsing error: " +:+ err))
  | (cfg, None) =>
  match ValidateConfig cfg with
  | Some err => ([], LogFatal ("config validation failed: " +:+ err))
  | None =>
  match configureLogger cfg with
  | Fatal msg => ([], LogFatal msg)
  | Returns _ =>
  match buildSource cfg with
  | (_, Some err) => ([], LogFatal err)
  | (endpointsSource, None) =>
  let domainFilter := createDomainFilter cfg in
  match buildProvider cfg domainFilter with
  | (_, Panics msg) => ([], Panicked msg)
  | (_, Completes (_, Some err)) => ([], LogFatal err)
  | (cfg, Completes (prvdr, None)) =>
  if WebhookServer cfg then ([StartHTTPApi prvdr], OsExit 0)
  else
  match buildController cfg endpointsSource prvdr domainFilter with
  | Fatal msg => ([], LogFatal msg)
  | Returns (inr err) => ([], LogFatal err)
  | Returns (inl ctrl) =>
  if Once cfg then
    match runOnce ctrl with
    | Some err => ([RunOnce ctrl], LogFatal err)
    | None => ([RunOnce ctrl], OsExit 0)
    end
  else
    let subscribed := if UpdateEvents cfg then [AddEventHandler ctrl] else [] in
    (subscribed ++ [ScheduleRunOnce ctrl; Run ctrl], Return)
  end end end end end end.

End Controller.

End controller.

(* ===================================================================== *)
(** ** package ns1 (provider/ns1) *)
(* ===================================================================== *)

Module ns1.
Import endpoint.

(** Go's [int] on the 64-bit platforms the program is built for. *)
Definition wrap_int (z : Z) : Z := ((z + 2 ^ 63) mod 2 ^ 64 - 2 ^ 63)%Z.

(** [http.Response], as far as the provider looks at it. *)
Record Response : Type := { StatusCode : Z }.

Definition StatusOK : Z := 200.
Definition StatusTooManyRequests : Z := 429.

Definition error : Type := string.

(** What a client call hands back: a response (nil-able) and an error. *)
Definition reply : Type := (option Response * option error)%type.

(** [MockNS1RateLimitAndRetry] of the package's tests: a client that fails
    on the first attempt and succeeds on the second, or always fails. *)
Record MockNS1RateLimitAndRetry : Type := {
  createAttempts : Z;
  alwaysRateLimit : bool
}.

(** The mock's [CreateRecord] method; the record it is given plays no part. *)
Definition CreateRecord (m : MockNS1RateLimitAndRetry)
  : reply * MockNS1RateLimitAndRetry :=
  let m := {| createAttempts := wrap_int (createAttempts m + 1);
              alwaysRateLimit := alwaysRateLimit m |} in
  if alwaysRateLimit m then
    ((Some {| StatusCode := StatusTooManyRequests |},
      Some "rate limit exceeded after exceeding retries"), m)
  else if (createAttempts m =? 1)%Z then
    ((Some {| StatusCode := StatusTooManyRequests |},
      Some "rate limit exceeded"), m)
  else
    ((Some {| StatusCode := StatusOK |}, None), m).

(** Modelled from the spec: [NS1Provider], declared in
    provider/ns1/ns1.go outside the sources at hand, with the fields that
    the tests set besides the client and the filters. Durations are in
    nanoseconds, as [time.Duration] is. *)
Record NS1Provider : Type := {
  minTTLSeconds : Z;
  maxRetries : Z;
  initialBackoff : Z;
  maxBackoff : Z
}.

(** Modelled from the spec: [ns1Change], with the two fields that the
    tests set. *)
Record ns1Change : Type := {
  Action : string;
  Endpoint : endpoint.Endpoint
}.

(** The action of a create, as [TestNewNS1Changes] spells it. *)
Definition ns1Create : string := "ns1Create".

(** [dns.Record] of the NS1 client library: zone, record type ([Type]
    there), answers and TTL. *)
Record dnsRecord : Type := {
  Zone : string;
  RType : string;
  Answers : list string;
  TTL : Z
}.

(** Modelled from the spec: [ns1BuildRecord], whose body is in
    provider/ns1/ns1.go, outside the sources at hand (only its test is).
    The record of a change takes the endpoint's TTL when one is set, and
    the provider's configured default ([minTTLSeconds], as the test names
    the field) when it is not. The record's domain name is left out. *)
Definition ns1BuildRecord (p : NS1Provider) (zoneName : string)
    (change : ns1Change) : dnsRecord :=
  let e := Endpoint change in
  {| Zone := zoneName;
     RType := RecordType e;
     Answers := Targets e;
     TTL := if IsConfigured (RecordTTL e) then RecordTTL e
             else minTTLSeconds p |}.

Section Retry.

(** The client behind the provider, as a state [Client] that each call
    transforms. *)
Context {Client : Type}.

(** Which errors are of the rate-limit type is left open. *)
Context (isRateLimitError : error -> bool).

(** Modelled from the spec: a retryable condition is signalled by the
    status code of the response or by a typed error. *)
Definition retryable (r : reply) : bool :=
  match r with
  | (resp, Some err) =>
      match resp with
      | Some resp => (StatusCode resp =? StatusTooManyRequests)%Z
      | None => false
      end
      || isRateLimitError err
  | (_, None) => false
  end.

(** Modelled from the spec: a reply that fails with a retryable
    condition: there is an error, and the response carries the status of
    the rate limit or the error is of the rate-limit type. *)
Definition fails_retryably (r : reply) : Prop :=
  exists err, snd r = Some err
              /\ ((exists resp, fst r = Some resp
                                /\ StatusCode resp = StatusTooManyRequests)
                  \/ isRateLimitError err = true).

(** An operation together with a count of the attempts made of it: each
    call adds one. *)
Definition counted (operation : Client -> reply * Client)
  : Client * nat -> reply * (Client * nat) :=
  fun s => let '(r, c) := operation (fst s) in (r, (c, S (snd s))).

(** Modelled from the spec: the wait before the attempt after [attempt],
    [min(initialBackoff * 2^(attempt-1), maxBackoff)]. *)
Definition backoff (p : NS1Provider) (attempt : Z) : Z :=
  Z.min (initialBackoff p * 2 ^ (attempt - 1)) (maxBackoff p).

(** Modelled from the spec: the world a mutation runs in, the client and
    the waits slept so far (latest first). *)
Record world : Type := {
  client : Client;
  slept : list Z
}.

(** Modelled from the spec: the retry wrapper around one record mutation
    (section 4.3 of the design; its code is in provider/ns1/ns1.go,
    outside the sources at hand). [remaining] is what is left of the
    attempt budget, [attempt] the number of the attempt about to be made,
    [lastErr] the error of the attempt before it. A success ends the call;
    an error that is not retryable fails it at once; a retryable one is
    followed by a sleep and the next attempt as long as the budget lasts,
    and by the return of that last error when it is used up. *)
Fixpoint retry_from (p : NS1Provider) (operation : Client -> reply * Client)
    (remaining : nat) (attempt : Z) (lastErr : option error) (w : world)
  : option error * world :=
  match remaining with
  | O => (lastErr, w)
  | S remaining' =>
      let '(r, c) := operation (client w) in
      let w := {| client := c; slept := slept w |} in
      match snd r with
      | None => (None, w)
      | Some err =>
          if retryable r then
            match remaining' with
            | O => (Some err, w)
            | S _ =>
                retry_from p operation remaining' (attempt + 1) (Some err)
                  {| client := c; slept := backoff p attempt :: slept w |}
            end
          else (Some err, w)
      end
  end.

(** Modelled from the spec: one record mutation under the wrapper, with
    the whole budget [maxRetries] and the first attempt ahead. *)
Definition retryWithBackoff (p : NS1Provider)
    (operation : Client -> reply * Client) (w : world) : option error * world :=
  retry_from p operation (Z.to_nat (maxRetries p)) 1 None w.

End Retry.

End ns1.

(* ===================================================================== *)
(** ** Sample inputs *)
(* ===================================================================== *)

Module samples.
Import netip.

(** A parser that knows two addresses, for running the definitions. *)
Definition ParseIP (s : string) : option IP :=
  if String.eqb s "1.2.3.4" then
    Some (IPv4 Byte.x01 Byte.x02 Byte.x03 Byte.x04)
  else if String.eqb s "2001:db8::1" then
    Some ([Byte.x20; Byte.x01; Byte.x0d; Byte.xb8]
            ++ repeat Byte.x00 11 ++ [Byte.x01])
  else None.

Definition isIPv6String (s : string) : bool :=
  match ParseIP s with
  | Some ip => negb (bool_decide (is_Some (To4 ip)))
  | None => false
  end.

Definition targetAnnotationKey : string :=
  "external-dns.alpha.kubernetes.io/target".

(** An instance that owns the records labelled with the owner "me". *)
Definition owns (e : endpoint.Endpoint) : bool :=
  bool_decide (endpoint.Labels e !! "owner" = Some "me").

Definition record (name target owner : string) : endpoint.Endpoint :=
  {| endpoint.DNSName := name;
     endpoint.Targets := [target];
     endpoint.RecordType := "A";
     endpoint.SetIdentifier := "";
     endpoint.RecordTTL := 0%Z;
     endpoint.Labels := if String.eqb owner "" then ∅ else {[ "owner" := owner ]};
     endpoint.ProviderSpecific := [] |}.

Definition Calculate : plan.Policy -> list endpoint.Endpoint
                       -> list endpoint.Endpoint -> plan.Changes :=
  plan.Calculate owns ["A"; "AAAA"; "CNAME"] [] (fun _ => true).

(** A configuration for the in-memory provider with the TXT registry. *)
Definition config (provider registry policy : string) (webhook : bool)
  : externaldns.Config :=
  {| externaldns.Provider := provider;
     externaldns.Registry := registry;
     externaldns.Policy := policy;
     externaldns.LogLevel := "info";
     externaldns.WebhookServer := webhook;
     externaldns.Once := false;
     externaldns.UpdateEvents := true;
     externaldns.ProviderCacheTime := 0;
     externaldns.Interval := 60;
     externaldns.MinEventSyncInterval := 5;
     externaldns.ManagedDNSRecordTypes := ["A"; "AAAA"; "CNAME"];
     externaldns.ExcludeDNSRecordTypes := [];
     externaldns.TXTOwnerID := "me";
     externaldns.TXTPrefix := "";
     externaldns.TXTSuffix := "";
     externaldns.TXTWildcardReplacement := "";
     externaldns.TXTCacheInterval := 0;
     externaldns.TXTEncryptEnabled := false;
     externaldns.TXTEncryptAESKey := "";
     externaldns.AWSDynamoDBRegion := "";
     externaldns.AWSDynamoDBTable := "external-dns";
     externaldns.RegexDomainFilter := None;
     externaldns.RegexDomainExclusion := None;
     externaldns.DomainFilter := [];
     externaldns.ExcludeDomains := [];
     externaldns.OCIAuthInstancePrincipal := false;
     externaldns.OCICompartmentOCID := "";
     externaldns.OCIConfigFile := "/etc/kubernetes/oci.yaml";
     externaldns.OCIZoneCacheDuration := 0 |}.

(** Collaborators of [Execute] that all succeed; providers, sources,
    registries and filters are their names. *)
Definition newProvider (name : string) (_ : externaldns.Config) (_ : string)
  : option string * option controller.error := (Some name, None).

Definition NewCachedProvider (p : string) (_ : Z) : string := p.
Definition instancePrincipalConfig (compartment : string) : string := compartment.
Definition LoadOCIConfig (file : string)
  : option string * option controller.error := (Some file, None).
Definition setZoneCacheDuration (_ : Z) (config : string) : string := config.
Definition NewOCIProvider (_ : string) (_ : externaldns.Config) (_ : string)
  : option string * option controller.error := (Some "oci", None).

Definition newRegistry (call : @controller.registry_call string)
  : option string * option controller.error :=
  match call with
  | controller.NewDynamoDBRegistry _ _ _ _ _ _ _ _ _ _ _ => (Some "dynamodb", None)
  | controller.NewNoopRegistry _ => (Some "noop", None)
  | controller.NewTXTRegistry _ _ _ _ _ _ _ _ _ _ => (Some "txt", None)
  | controller.NewAWSSDRegistry _ _ => (Some "aws-sd", None)
  end.

Definition NewRegexDomainFilter (re : string) (_ : option string) : string := re.
Definition NewDomainFilterWithExclusions (_ _ : list string) : string := "domains".
Definition ByNames (_ : externaldns.Config)
  : list string * option controller.error := (["service"; "ingress"], None).
Definition NewMultiSource (_ : list string) (_ : externaldns.Config) : string :=
  "multi".
Definition NewDedupSource (src : string) : string := src.
Definition NewNAT64Source (src : string) (_ : externaldns.Config) : string := src.
Definition NewTargetFilterSource (src : string) (_ : externaldns.Config)
  : string := src.
Definition ParseLevel (_ : string) : option controller.error := None.
Definition ParseFlags (cfg : externaldns.Config) (_ : list string)
  : externaldns.Config * option controller.error := (cfg, None).
Definition ValidateConfig (_ : externaldns.Config) : option controller.error :=
  None.
Definition runOnce (_ : @controller.Controller string string string)
  : option controller.error := None.

(** [Execute] when the flags parse to [cfg]. *)
Definition Execute (cfg : externaldns.Config) (args : list string)
  : list (@controller.action string string string string) * controller.ending :=
  controller.Execute newProvider NewCachedProvider instancePrincipalConfig
    LoadOCIConfig setZoneCacheDuration NewOCIProvider newRegistry
    NewRegexDomainFilter NewDomainFilterWithExclusions ByNames NewMultiSource
    NewDedupSource NewNAT64Source NewTargetFilterSource ParseLevel cfg
    ParseFlags ValidateConfig runOnce args.

(** A configuration for OCI with instance-principal authentication and no
    compartment. *)
Definition oci_config : externaldns.Config :=
  {| externaldns.Provider := "oci";
     externaldns.Registry := "txt";
     externaldns.Policy := "sync";
     externaldns.LogLevel := "info";
     externaldns.WebhookServer := false;
     externaldns.Once := false;
     externaldns.UpdateEvents := false;
     externaldns.ProviderCacheTime := 0;
     externaldns.Interval := 60;
     externaldns.MinEventSyncInterval := 5;
     externaldns.ManagedDNSRecordTypes := ["A"; "AAAA"; "CNAME"];
     externaldns.ExcludeDNSRecordTypes := [];
     externaldns.TXTOwnerID := "me";
     externaldns.TXTPrefix := "";
     externaldns.TXTSuffix := "";
     externaldns.TXTWildcardReplacement := "";
     externaldns.TXTCacheInterval := 0;
     externaldns.TXTEncryptEnabled := false;
     externaldns.TXTEncryptAESKey := "";
     externaldns.AWSDynamoDBRegion := "";
     externaldns.AWSDynamoDBTable := "external-dns";
     externaldns.RegexDomainFilter := None;
     externaldns.RegexDomainExclusion := None;
     externaldns.DomainFilter := [];
     externaldns.ExcludeDomains := [];
     externaldns.OCIAuthInstancePrincipal := true;
     externaldns.OCICompartmentOCID := "";
     externaldns.OCIConfigFile := "/etc/kubernetes/oci.yaml";
     externaldns.OCIZoneCacheDuration := 0 |}.

(** [buildProvider] among the sample collaborators. *)
Definition buildProvider (cfg : externaldns.Config) (domainFilter : string)
  : externaldns.Config
    * controller.completion (option string * option controller.error) :=
  controller.buildProvider newProvider NewCachedProvider instancePrincipalConfig
    LoadOCIConfig setZoneCacheDuration NewOCIProvider cfg domainFilter.

(** Annotations of a service: a set identifier, an AWS routing weight and
    the alias flag. *)
Definition aliasAnnotationKey : string :=
  "external-dns.alpha.kubernetes.io/alias".

Definition internalHostnameAnnotationKey : string :=
  "external-dns.alpha.kubernetes.io/internal-hostname".

Definition annotations : gmap string string :=
  <[ "external-dns.alpha.kubernetes.io/set-identifier" := "blue" ]>
    (<[ "external-dns.alpha.kubernetes.io/aws-weight" := "10" ]>
       (<[ aliasAnnotationKey := "true" ]>
          (<[ targetAnnotationKey := "a.example.org., b.example.org" ]> ∅))).

(** A classification of the errors in which one error is of the
    rate-limit type, and a client call that fails with it without a
    response. *)
Definition isRateLimitError (err : ns1.error) : bool := String.eqb err "throttled".

Definition throttled (c : unit) : ns1.reply * unit := ((None, Some "throttled"), c).

(** The provider and the two changes of [TestNS1BuildRecord]. *)
Definition ns1_provider (retries : Z) : ns1.NS1Provider :=
  {| ns1.minTTLSeconds := 300;
     ns1.maxRetries := retries;
     ns1.initialBackoff := 1000000;
     ns1.maxBackoff := 2000000 |}.

Definition change : ns1.ns1Change :=
  {| ns1.Action := ns1.ns1Create;
     ns1.Endpoint :=
       {| endpoint.DNSName := "new";
          endpoint.Targets := ["target"];
          endpoint.RecordType := "A";
          endpoint.SetIdentifier := "";
          endpoint.RecordTTL := 0%Z;
          endpoint.Labels := ∅;
          endpoint.ProviderSpecific := [] |} |}.

Definition changeWithTTL : ns1.ns1Change :=
  {| ns1.Action := ns1.ns1Create;
     ns1.Endpoint :=
       {| endpoint.DNSName := "new-b";
          endpoint.Targets := ["target"];
          endpoint.RecordType := "A";
          endpoint.SetIdentifier := "";
          endpoint.RecordTTL := 3600%Z;
          endpoint.Labels := ∅;
          endpoint.ProviderSpecific := [] |} |}.

End samples.

(* ===================================================================== *)
(** * Properties *)
(* ===================================================================== *)

(** ** Strings *)

Section StringFacts.
Import gostrings.

Lemma len_app (a b : string) : len (a +:+ b) = (len a + len b)%nat.
Proof. induction a as [|c a IH]; simpl; [reflexivity | now rewrite <- IH]. Qed.

Lemma substring_all (s : string) : substring 0 (len s) s = s.
Proof. induction s as [|c s IH]; simpl; [reflexivity | now rewrite IH]. Qed.

Lemma substring_prefix (a b : string) : substring 0 (len a) (a +:+ b) = a.
Proof.
  induction a as [|c a IH]; simpl.
  - now destruct b.
  - now rewrite IH.
Qed.

Lemma substring_suffix (a b : string) :
  substring (len a) (len b) (a +:+ b) = b.
Proof. induction a as [|c a IH]; simpl; [apply substring_all | exact IH]. Qed.

Lemma substring_split (s : string) (n : nat) :
  (n <= len s)%nat ->
  s = substring 0 n s +:+ substring n (len s - n) s.
Proof.
  revert n; induction s as [|c s IH]; intros [|n] Hn; simpl in *.
  - reflexivity.
  - lia.
  - now rewrite substring_all.
  - change (String c s
            = String c (substring 0 n s +:+ substring n (len s - n) s)).
    f_equal. apply IH; lia.
Qed.

Lemma HasSuffix_app (a b : string) : HasSuffix (a +:+ b) b = true.
Proof.
  unfold HasSuffix. rewrite len_app.
  replace (len a + len b - len b)%nat with (len a) by lia.
  rewrite substring_suffix, String.eqb_refl, andb_true_r.
  apply Nat.leb_le; lia.
Qed.

Lemma HasSuffix_inv (s suffix : string) :
  HasSuffix s suffix = true ->
  s = substring 0 (len s - len suffix) s +:+ suffix.
Proof.
  unfold HasSuffix. intros H. apply andb_true_iff in H as [Hle Heq].
  apply Nat.leb_le in Hle. apply String.eqb_eq in Heq.
  pose proof (substring_split s (len s - len suffix)) as Hs.
  replace (len s - (len s - len suffix))%nat with (len suffix) in Hs by lia.
  rewrite Heq in Hs. apply Hs; lia.
Qed.

(** [TrimSuffix] takes the suffix off a string that ends with it... *)
Lemma TrimSuffix_app (a b : string) : TrimSuffix (a +:+ b) b = a.
Proof.
  unfold TrimSuffix. rewrite HasSuffix_app, len_app.
  replace (len a + len b - len b)%nat with (len a) by lia.
  apply substring_prefix.
Qed.

(** ... and leaves any other string alone. *)
Lemma TrimSuffix_other (s suffix : string) :
  (forall h, s <> h +:+ suffix) -> TrimSuffix s suffix = s.
Proof.
  intros Hno. unfold TrimSuffix.
  destruct (HasSuffix s suffix) eqn:E; [|reflexivity].
  exfalso. exact (Hno _ (HasSuffix_inv _ _ E)).
Qed.

End StringFacts.

(** ** package source *)

Section SourceFacts.
Import gostrings netip endpoint source.

Context (ParseIP : string -> option IP).
Context (isIPv6String : string -> bool).
Context (targetAnnotationKey : string).
Context (NewLabels : gmap string string).

Local Abbreviation suitableType := (suitableType ParseIP).
Local Abbreviation classify := (classify ParseIP isIPv6String).
Local Abbreviation goes_to_a := (goes_to_a ParseIP isIPv6String).
Local Abbreviation goes_to_aaaa := (goes_to_aaaa ParseIP isIPv6String).
Local Abbreviation goes_to_cname := (goes_to_cname ParseIP).
Local Abbreviation endpointsForHostname :=
  (endpointsForHostname ParseIP isIPv6String NewLabels).
Local Abbreviation getTargetsFromTargetAnnotation :=
  (getTargetsFromTargetAnnotation targetAnnotationKey).

Lemma fold_append_map {A B : Type} (f : A -> B) (l : list A) (acc : list B) :
  fold_left (fun acc x => acc ++ [f x]) l acc = acc ++ map f l.
Proof.
  revert acc; induction l as [|x l IH]; intros acc; simpl.
  - now rewrite app_nil_r.
  - rewrite IH, <- app_assoc. reflexivity.
Qed.

(** The three slices after the loop: each holds, behind what it held
    before, the targets of its kind that pass the IPv6 check, in order. *)
Lemma classify_fold (targets : list string) (b : buckets) :
  aTargets (fold_left classify targets b)
    = aTargets b ++ List.filter goes_to_a targets
  /\ aaaaTargets (fold_left classify targets b)
    = aaaaTargets b ++ List.filter goes_to_aaaa targets
  /\ cnameTargets (fold_left classify targets b)
    = cnameTargets b ++ List.filter goes_to_cname targets.
Proof.
  revert b; induction targets as [|t ts IH]; intros b; simpl.
  - now rewrite !app_nil_r.
  - destruct (IH (classify b t)) as (Ha & Haaaa & Hc).
    rewrite Ha, Haaaa, Hc. clear IH Ha Haaaa Hc.
    unfold source.classify, source.goes_to_a, source.goes_to_aaaa,
      source.goes_to_cname.
    destruct (String.eqb (suitableType t) RecordTypeA);
      destruct (String.eqb (suitableType t) RecordTypeAAAA);
      destruct (isIPv6String t); simpl;
      rewrite ?app_nil_r, <- ?app_assoc; auto.
Qed.

(** C8. [suitableType] answers "A" for a target that parses as an IP
    address with a 4-byte form, "AAAA" for one that parses as an IP address
    without a 4-byte form, and "CNAME" for every target that does not
    parse as an IP address. [net.ParseIP] returns addresses of 16 bytes
    (4-byte ones are allowed for here as well). *)
Theorem suitableType_by_address_family
    (ParseIP_len : forall s ip, ParseIP s = Some ip ->
                     length ip = IPv4len \/ length ip = IPv6len)
    (t : string) :
  (forall ip, ParseIP t = Some ip -> is_Some (To4 ip) -> suitableType t = "A")
  /\ (forall ip, ParseIP t = Some ip -> To4 ip = None -> suitableType t = "AAAA")
  /\ (ParseIP t = None -> suitableType t = "CNAME").
Proof.
  unfold source.suitableType. repeat split.
  - intros ip Hp H4. rewrite Hp. simpl.
    repeat case_bool_decide; simpl; try reflexivity;
      exfalso; eauto.
  - intros ip Hp H4. rewrite Hp. simpl. rewrite H4.
    assert (H16 : is_Some (To16 ip)).
    { unfold To16. destruct (ParseIP_len _ _ Hp) as [Hl | Hl]; rewrite Hl;
        simpl; eauto. }
    repeat case_bool_decide; simpl; try reflexivity; exfalso; eauto;
      match goal with H : is_Some None |- _ => destruct H; discriminate end.
  - intros Hp. rewrite Hp. simpl.
    repeat case_bool_decide; simpl; try reflexivity; exfalso;
      match goal with H : is_Some None |- _ => destruct H; discriminate end.
Qed.

(** C7. Trailing dots go at the source layer: the DNS name of every
    endpoint of [endpointsForHostname] is the hostname without its
    trailing dot (the hostname itself when it has none), and the targets
    of the target annotation are, one for one, the comma-separated pieces
    of the annotation (blanks removed) without their trailing dot. *)
Theorem trailing_dot_trimmed_at_source
    (hostname : string) (targets : list string) (ttl : TTL)
    (providerSpecific : list ProviderSpecificProperty) (setIdentifier : string)
    (annotations : gmap string string) :
  Forall (fun ep =>
            (forall h, hostname = h +:+ "." -> DNSName ep = h)
            /\ ((forall h, hostname <> h +:+ ".") -> DNSName ep = hostname))
    (endpointsForHostname hostname targets ttl providerSpecific setIdentifier)
  /\ (forall targetAnnotation,
        annotations !! targetAnnotationKey = Some targetAnnotation ->
        targetAnnotation <> "" ->
        Forall2 (fun piece target =>
                   (forall h, piece = h +:+ "." -> target = h)
                   /\ ((forall h, piece <> h +:+ ".") -> target = piece))
          (Split (ReplaceAll targetAnnotation " " "") ",")
          (getTargetsFromTargetAnnotation annotations)).
Proof.
  split.
  - assert (Hname : (forall h, hostname = h +:+ "." -> TrimSuffix hostname "." = h)
                    /\ ((forall h, hostname <> h +:+ ".")
                        -> TrimSuffix hostname "." = hostname)).
    { split.
      - intros h ->. apply TrimSuffix_app.
      - apply TrimSuffix_other. }
    unfold source.endpointsForHostname.
    repeat match goal with |- context [if ?b then _ else _] => destruct b end;
      simpl; repeat constructor; simpl; apply Hname.
  - intros targetAnnotation Hget Hne.
    unfold source.getTargetsFromTargetAnnotation. rewrite Hget.
    destruct (String.eqb_spec targetAnnotation "") as [E | _]; [contradiction |].
    simpl. rewrite fold_append_map. simpl.
    induction (Split (ReplaceAll targetAnnotation " " "") ",") as [|piece l IH];
      simpl; constructor; [| exact IH].
    split.
    + intros h ->. apply TrimSuffix_app.
    + apply TrimSuffix_other.
Qed.

(** C9. [endpointsForHostname] returns at most three endpoints, at most
    one of any record type, each of type A, AAAA or CNAME, with a
    non-empty target list and with the TTL, provider-specific properties
    and set identifier it was given; its targets are among the given ones,
    and none of them is a target whose suitable type is A while its string
    form is IPv6, or whose suitable type is AAAA while its string form is
    not IPv6. *)
Theorem endpointsForHostname_shape
    (hostname : string) (targets : list string) (ttl : TTL)
    (providerSpecific : list ProviderSpecificProperty) (setIdentifier : string) :
  let endpoints :=
    endpointsForHostname hostname targets ttl providerSpecific setIdentifier in
  (length endpoints <= 3)%nat
  /\ (forall ty,
        (length (List.filter (fun ep => String.eqb (RecordType ep) ty) endpoints)
         <= 1)%nat)
  /\ Forall (fun ep =>
               In (RecordType ep) ["A"; "AAAA"; "CNAME"]
               /\ Targets ep <> []
               /\ RecordTTL ep = ttl
               /\ ProviderSpecific ep = providerSpecific
               /\ SetIdentifier ep = setIdentifier
               /\ Forall (fun t =>
                            In t targets
                            /\ ~ (suitableType t = "A" /\ isIPv6String t = true)
                            /\ ~ (suitableType t = "AAAA"
                                  /\ isIPv6String t = false))
                    (Targets ep))
       endpoints.
Proof.
  pose proof (classify_fold targets
                {| aTargets := []; aaaaTargets := []; cnameTargets := [] |})
    as (Ha & Haaaa & Hc).
  simpl in Ha, Haaaa, Hc.
  assert (Hkept : forall (p : string -> bool),
             (forall t, p t = true ->
                ~ (suitableType t = "A" /\ isIPv6String t = true)
                /\ ~ (suitableType t = "AAAA" /\ isIPv6String t = false)) ->
             Forall (fun t =>
                       In t targets
                       /\ ~ (suitableType t = "A" /\ isIPv6String t = true)
                       /\ ~ (suitableType t = "AAAA" /\ isIPv6String t = false))
               (List.filter p targets)).
  { intros p Hp. apply List.Forall_forall. intros t Ht.
    apply List.filter_In in Ht as [Hin Hpt]. split; [exact Hin | now apply Hp]. }
  assert (HA : Forall (fun t =>
                       In t targets
                       /\ ~ (suitableType t = "A" /\ isIPv6String t = true)
                       /\ ~ (suitableType t = "AAAA" /\ isIPv6String t = false))
               (List.filter goes_to_a targets)).
  { apply Hkept. intros t Ht. unfold source.goes_to_a in Ht.
    apply andb_true_iff in Ht as [Hty H6].
    apply String.eqb_eq in Hty. apply negb_true_iff in H6.
    split; intros [H1 H2]; [congruence |].
    rewrite Hty in H1. discriminate. }
  assert (HAAAA : Forall (fun t =>
                       In t targets
                       /\ ~ (suitableType t = "A" /\ isIPv6String t = true)
                       /\ ~ (suitableType t = "AAAA" /\ isIPv6String t = false))
               (List.filter goes_to_aaaa targets)).
  { apply Hkept. intros t Ht. unfold source.goes_to_aaaa in Ht.
    apply andb_true_iff in Ht as [Ht H6].
    apply andb_true_iff in Ht as [HnA Hty].
    apply String.eqb_eq in Hty.
    split; intros [H1 H2]; [| congruence].
    rewrite Hty in H1. discriminate. }
  assert (HC : Forall (fun t =>
                       In t targets
                       /\ ~ (suitableType t = "A" /\ isIPv6String t = true)
                       /\ ~ (suitableType t = "AAAA" /\ isIPv6String t = false))
               (List.filter goes_to_cname targets)).
  { apply Hkept. intros t Ht. unfold source.goes_to_cname in Ht.
    apply andb_true_iff in Ht as [HnA HnAAAA].
    apply negb_true_iff in HnA, HnAAAA.
    apply String.eqb_neq in HnA, HnAAAA.
    split; intros [H1 H2]; contradiction. }
  rewrite <- Ha in HA. rewrite <- Haaaa in HAAAA. rewrite <- Hc in HC.
  clear Ha Haaaa Hc Hkept.
  unfold source.endpointsForHostname.
  set (b := fold_left classify targets _) in *.
  assert (Hnonempty : forall l : list string, (0 <? length l)%nat = true -> l <> []).
  { intros [|x l] H; [discriminate | congruence]. }
  cbv zeta.
  destruct (0 <? length (aTargets b))%nat eqn:Ea;
    destruct (0 <? length (aaaaTargets b))%nat eqn:Eaaaa;
    destruct (0 <? length (cnameTargets b))%nat eqn:Ec;
    (split; [simpl; lia |]);
    (split;
     [ intros ty; cbn [List.filter app RecordType];
       unfold RecordTypeA, RecordTypeAAAA, RecordTypeCNAME;
       repeat match goal with
              | |- context [String.eqb ?a ty] =>
                  let E := fresh "E" in
                  destruct (String.eqb a ty) eqn:E;
                  [apply String.eqb_eq in E |]
              end; cbn [length]; try lia; congruence
     | simpl;
       repeat (apply List.Forall_cons;
               [ simpl; repeat split; auto;
                 unfold RecordTypeA, RecordTypeAAAA, RecordTypeCNAME; tauto |]);
       apply List.Forall_nil ]).
Qed.

End SourceFacts.

Section EventHandlerFacts.
Import source.

Context {St Obj : Type}.

(** C6. Whatever the informer observes (an add, one of the initial list or
    not, an update or a delete), the handler runs the subscribed function
    once, and nothing of the event reaches that function: after a
    sequence of events the state is the one that as many runs of the
    function as there are events produce. *)
Theorem eventHandlerFunc_runs_notify_once (fn : @eventHandlerFunc St) :
  (forall (obj : Obj) isInInitialList st, OnAdd fn obj isInInitialList st = fn st)
  /\ (forall (oldObj newObj : Obj) st, OnUpdate fn oldObj newObj st = fn st)
  /\ (forall (obj : Obj) st, OnDelete fn obj st = fn st)
  /\ (forall (ev : @event Obj) st, deliver fn ev st = fn st)
  /\ (forall (evs : list (@event Obj)) st,
        deliver_all fn evs st = Nat.iter (length evs) fn st).
Proof.
  repeat split; try reflexivity.
  - intros [obj b | o n | obj] st; reflexivity.
  - intros evs. induction evs as [|ev evs IH]; intros st; [reflexivity |].
    unfold deliver_all in *. simpl fold_left. rewrite IH.
    replace (deliver fn ev st) with (fn st) by (destruct ev; reflexivity).
    simpl length. now rewrite Nat.iter_succ_r.
Qed.

End EventHandlerFacts.

(** ** package controller *)

Section ControllerFacts.
Import plan externaldns controller.

Context {ProviderT SourceT RegistryT Filter OCIConfigT : Type}.
Context (newProvider : string -> Config -> Filter
                       -> option ProviderT * option controller.error).
Context (NewCachedProvider : ProviderT -> Z -> ProviderT).
Context (instancePrincipalConfig : string -> OCIConfigT).
Context (LoadOCIConfig : string -> option OCIConfigT * option controller.error).
Context (setZoneCacheDuration : Z -> OCIConfigT -> OCIConfigT).
Context (NewOCIProvider : OCIConfigT -> Config -> Filter
                          -> option ProviderT * option controller.error).
Context (newRegistry : @registry_call ProviderT
                       -> option RegistryT * option controller.error).
Context (NewRegexDomainFilter : string -> option string -> Filter).
Context (NewDomainFilterWithExclusions : list string -> list string -> Filter).
Context (ByNames : Config -> list SourceT * option controller.error).
Context (NewMultiSource : list SourceT -> Config -> SourceT).
Context (NewDedupSource : SourceT -> SourceT).
Context (NewNAT64Source : SourceT -> Config -> SourceT).
Context (NewTargetFilterSource : SourceT -> Config -> SourceT).
Context (ParseLevel : string -> option controller.error).
Context (NewConfig : Config).
Context (ParseFlags : Config -> list string -> Config * option controller.error).
Context (ValidateConfig : Config -> option controller.error).
Context (runOnce : @Controller SourceT RegistryT Filter -> option controller.error).

Local Abbreviation buildProvider :=
  (buildProvider newProvider NewCachedProvider instancePrincipalConfig
     LoadOCIConfig setZoneCacheDuration NewOCIProvider).
Local Abbreviation selectRegistry := (selectRegistry newRegistry).
Local Abbreviation buildController := (buildController newRegistry).
Local Abbreviation buildSource :=
  (buildSource ByNames NewMultiSource NewDedupSource NewNAT64Source
     NewTargetFilterSource).
Local Abbreviation createDomainFilter :=
  (createDomainFilter NewRegexDomainFilter NewDomainFilterWithExclusions).
Local Abbreviation Execute :=
  (Execute newProvider NewCachedProvider instancePrincipalConfig LoadOCIConfig
     setZoneCacheDuration NewOCIProvider newRegistry NewRegexDomainFilter
     NewDomainFilterWithExclusions ByNames NewMultiSource NewDedupSource
     NewNAT64Source NewTargetFilterSource ParseLevel NewConfig ParseFlags
     ValidateConfig runOnce).

(** The table of policies has the three names and no other. *)
Lemma Policies_unknown (name : string) :
  name <> "sync" -> name <> "upsert-only" -> name <> "create-only" ->
  Policies !! name = None.
Proof.
  intros H1 H2 H3. unfold Policies.
  rewrite !lookup_insert_ne by congruence. apply lookup_empty.
Qed.

(** [buildProvider] touches no field of the configuration but the
    registry, and that one only for AWS Cloud Map. *)
Lemma buildProvider_cfg (cfg : Config) (domainFilter : Filter) :
  fst (buildProvider cfg domainFilter)
  = if String.eqb (Provider cfg) "aws-sd"
       && negb (String.eqb (externaldns.Registry cfg) "noop")
       && negb (String.eqb (externaldns.Registry cfg) "aws-sd")
    then set_Registry "aws-sd" cfg else cfg.
Proof.
  unfold controller.buildProvider.
  destruct (String.eqb (Provider cfg) "aws-sd"); simpl.
  - destruct (negb (String.eqb (externaldns.Registry cfg) "noop")
              && negb (String.eqb (externaldns.Registry cfg) "aws-sd"));
      destruct (newProvider _ _ _) as [p err]; reflexivity.
  - destruct (String.eqb (Provider cfg) "inmemory"); [reflexivity |].
    destruct (String.eqb (Provider cfg) "oci").
    { destruct (buildOCIProvider _ _ _ _ _ _) as [[p err] | msg]; reflexivity. }
    destruct (bool_decide _); [| reflexivity].
    destruct (newProvider _ _ _) as [p err]; reflexivity.
Qed.

Lemma buildProvider_Policy (cfg : Config) (domainFilter : Filter) :
  externaldns.Policy (fst (buildProvider cfg domainFilter))
  = externaldns.Policy cfg.
Proof.
  rewrite buildProvider_cfg.
  destruct (_ && _); reflexivity.
Qed.

Lemma buildProvider_WebhookServer (cfg : Config) (domainFilter : Filter) :
  WebhookServer (fst (buildProvider cfg domainFilter)) = WebhookServer cfg.
Proof.
  rewrite buildProvider_cfg.
  destruct (_ && _); reflexivity.
Qed.

Lemma buildController_unknown_policy (cfg : Config) (src : option SourceT)
    (p : option ProviderT) (filter : Filter) :
  Policies !! externaldns.Policy cfg = None ->
  buildController cfg src p filter
  = Returns (inr ("unknown policy: " +:+ externaldns.Policy cfg)).
Proof. intros H. unfold controller.buildController. now rewrite H. Qed.

(** C10. With the provider "aws-sd" and a registry that is neither "noop"
    nor "aws-sd", [buildProvider] leaves the configuration with the
    registry "aws-sd" (and nothing else changed), so that [selectRegistry]
    on it builds the AWS-SD registry, for the provider it is given and the
    configured owner. *)
Theorem aws_sd_provider_forces_aws_sd_registry
    (cfg : Config) (domainFilter : Filter) :
  Provider cfg = "aws-sd" ->
  externaldns.Registry cfg <> "noop" ->
  externaldns.Registry cfg <> "aws-sd" ->
  let cfg' := fst (buildProvider cfg domainFilter) in
  cfg' = set_Registry "aws-sd" cfg
  /\ externaldns.Registry cfg' = "aws-sd"
  /\ forall p, selectRegistry cfg' p
               = Returns (newRegistry (NewAWSSDRegistry p (TXTOwnerID cfg))).
Proof.
  intros Hp Hnoop Hsd cfg'.
  assert (E : cfg' = set_Registry "aws-sd" cfg).
  { unfold cfg'. rewrite buildProvider_cfg, Hp.
    apply String.eqb_neq in Hnoop, Hsd. now rewrite Hnoop, Hsd. }
  rewrite E. repeat split.
Qed.

(** C5. A policy name other than "sync", "upsert-only" and "create-only"
    makes the construction of the controller fail: [buildController]
    returns the error "unknown policy: <name>" whatever else it is given,
    [Execute], once its start-up has come to the construction of the
    controller, ends in [log.Fatal] with that error before it has done
    anything, and no run of [Execute] with such a policy reaches the
    reconciliation loop ([RunOnce], the event subscription, the scheduling
    or [Run]). *)
Theorem unknown_policy_is_fatal_at_startup (name : string) :
  name <> "sync" -> name <> "upsert-only" -> name <> "create-only" ->
  (forall cfg (src : option SourceT) (p : option ProviderT) (filter : Filter),
      externaldns.Policy cfg = name ->
      buildController cfg src p filter
      = Returns (inr ("unknown policy: " +:+ name)))
  /\ (forall args cfg,
        ParseFlags NewConfig args = (cfg, None) ->
        externaldns.Policy cfg = name ->
        ValidateConfig cfg = None ->
        ParseLevel (LogLevel cfg) = None ->
        snd (buildSource cfg) = None ->
        (exists p, snd (buildProvider cfg (createDomainFilter cfg))
                   = Completes (p, None)) ->
        WebhookServer cfg = false ->
        Execute args = ([], LogFatal ("unknown policy: " +:+ name)))
  /\ (forall args,
        externaldns.Policy (fst (ParseFlags NewConfig args)) = name ->
        Forall (fun a => in_loop a = false) (fst (Execute args))
        /\ snd (Execute args) <> Return).
Proof.
  intros H1 H2 H3.
  pose proof (Policies_unknown name H1 H2 H3) as Hnone.
  split; [| split].
  - intros cfg src p filter <-. now apply buildController_unknown_policy.
  - intros args cfg Hparse Hpol Hval Hlvl Hsrc Hprov Hweb.
    unfold controller.Execute. rewrite Hparse, Hval.
    unfold controller.configureLogger. rewrite Hlvl.
    destruct (buildSource cfg) as [src serr] eqn:Es. simpl in Hsrc. subst serr.
    pose proof (buildProvider_Policy cfg (createDomainFilter cfg)) as HP.
    pose proof (buildProvider_WebhookServer cfg (createDomainFilter cfg)) as HW.
    destruct (buildProvider cfg (createDomainFilter cfg)) as [cfg' done] eqn:Ep.
    destruct Hprov as [p Hprov].
    simpl in Hprov, HP, HW. subst done.
    rewrite HW, Hweb.
    rewrite buildController_unknown_policy by (rewrite HP, Hpol; exact Hnone).
    now rewrite HP, Hpol.
  - intros args Hpol.
    unfold controller.Execute.
    destruct (ParseFlags NewConfig args) as [cfg [err|]]; simpl in Hpol;
      [split; [constructor | discriminate] |].
    destruct (ValidateConfig cfg); [split; [constructor | discriminate] |].
    destruct (configureLogger ParseLevel cfg);
      [| split; [constructor | discriminate]].
    destruct (buildSource cfg) as [src [serr|]];
      [split; [constructor | discriminate] |].
    pose proof (buildProvider_Policy cfg (createDomainFilter cfg)) as HP.
    destruct (buildProvider cfg (createDomainFilter cfg))
      as [cfg' [[p [perr|]] | msg]];
      [split; [constructor | discriminate] | | split; [constructor | discriminate]].
    simpl in HP.
    destruct (WebhookServer cfg').
    + split; [repeat constructor | discriminate].
    + rewrite buildController_unknown_policy by (rewrite HP, Hpol; exact Hnone).
      split; [constructor | discriminate].
Qed.

End ControllerFacts.

(** ** package ns1 *)

Section NS1Facts.
Import endpoint ns1.

Local Open Scope Z_scope.

Lemma wrap_int_small (z : Z) : - 2 ^ 63 <= z < 2 ^ 63 -> wrap_int z = z.
Proof. intros H. unfold wrap_int. rewrite Z.mod_small; lia. Qed.

Context (isRateLimitError : ns1.error -> bool).

Local Abbreviation retryable := (retryable isRateLimitError).
Local Abbreviation fails_retryably := (fails_retryably isRateLimitError).
Local Abbreviation retry_from := (retry_from isRateLimitError).
Local Abbreviation retryWithBackoff := (retryWithBackoff isRateLimitError).

(** The wrapper takes a failure with the status of the rate limit, and
    one with an error of the rate-limit type, for retryable. *)
Lemma fails_retryably_retryable (r : reply) :
  fails_retryably r -> exists err, snd r = Some err /\ retryable r = true.
Proof.
  destruct r as [resp e]. intros (err & He & Hwhy). cbn [fst snd] in He, Hwhy.
  subst e. exists err. split; [reflexivity |]. unfold ns1.retryable.
  destruct Hwhy as [(rs & -> & Hs) | Ht].
  - rewrite Hs. reflexivity.
  - rewrite Ht. apply orb_true_r.
Qed.

(** One attempt that fails with a retryable condition. *)
Lemma retry_from_retry {Client : Type} (p : NS1Provider)
    (operation : Client -> reply * Client) (r : nat) (attempt : Z)
    (lastErr : option ns1.error) (w : world) (rep : reply) (c : Client)
    (err : ns1.error) :
  operation (client w) = (rep, c) ->
  snd rep = Some err ->
  retryable rep = true ->
  retry_from p operation (S r) attempt lastErr w
  = match r with
    | O => (Some err, {| client := c; slept := slept w |})
    | S _ => retry_from p operation r (attempt + 1) (Some err)
               {| client := c; slept := backoff p attempt :: slept w |}
    end.
Proof. intros H1 H2 H3. cbn [ns1.retry_from]. now rewrite H1, H2, H3. Qed.

(** One attempt that succeeds. *)
Lemma retry_from_success {Client : Type} (p : NS1Provider)
    (operation : Client -> reply * Client) (r : nat) (attempt : Z)
    (lastErr : option ns1.error) (w : world) (rep : reply) (c : Client) :
  operation (client w) = (rep, c) ->
  snd rep = None ->
  retry_from p operation (S r) attempt lastErr w
  = (None, {| client := c; slept := slept w |}).
Proof. intros H1 H2. cbn [ns1.retry_from]. now rewrite H1, H2. Qed.

Lemma counted_eq {Client : Type} (operation : Client -> reply * Client)
    (c : Client) (n : nat) :
  counted operation (c, n) = (fst (operation c), (snd (operation c), S n)).
Proof. unfold counted. cbn [fst snd]. now destruct (operation c). Qed.

(** An operation that keeps failing with a retryable condition is
    attempted until the budget is used up, and the call fails. *)
Lemma retry_from_always_failing {Client : Type} (p : NS1Provider)
    (operation : Client -> reply * Client) (Inv : Client -> Prop) :
  (forall c, Inv c ->
             fails_retryably (fst (operation c)) /\ Inv (snd (operation c))) ->
  forall (remaining : nat) (attempt : Z) (lastErr : option ns1.error)
         (c : Client) (n : nat) (sl : list Z),
    (1 <= remaining)%nat ->
    Inv c ->
    let out := retry_from p (counted operation) remaining attempt lastErr
                 {| client := (c, n); slept := sl |} in
    is_Some (fst out) /\ snd (client (snd out)) = (n + remaining)%nat.
Proof.
  intros Hstep. induction remaining as [|r IH];
    intros attempt lastErr c n sl Hr Hc; [lia |].
  destruct (Hstep c Hc) as [Hfail Hnext].
  apply fails_retryably_retryable in Hfail as (err & Herr & Hretry).
  cbv zeta.
  rewrite (retry_from_retry p (counted operation) r attempt lastErr
             {| client := (c, n); slept := sl |}
             (fst (operation c)) (snd (operation c), S n) err
             (counted_eq operation c n) Herr Hretry).
  destruct r as [|r'].
  - cbn [fst snd client]. split; [eauto | lia].
  - specialize (IH (attempt + 1) (Some err) (snd (operation c)) (S n)
                  (backoff p attempt :: sl)).
    cbv zeta in IH. destruct IH as [Hsome Hcount]; [lia | exact Hnext |].
    split; [exact Hsome |]. etransitivity; [exact Hcount | lia].
Qed.

(** A client that always answers with the rate limit uses up the budget;
    the mock's own count of the attempts says so. *)
Lemma retry_from_always_limited (p : NS1Provider) (remaining : nat) :
  forall (attempt : Z) (lastErr : option ns1.error) (n : Z) (sl : list Z),
    (1 <= remaining)%nat ->
    0 <= n -> n + Z.of_nat remaining < 2 ^ 63 ->
    let out := retry_from p CreateRecord remaining attempt lastErr
                 {| client := {| createAttempts := n; alwaysRateLimit := true |};
                    slept := sl |} in
    is_Some (fst out)
    /\ createAttempts (client (snd out)) = n + Z.of_nat remaining
    /\ alwaysRateLimit (client (snd out)) = true.
Proof.
  induction remaining as [|r IH]; intros attempt lastErr n sl Hr Hn Hb; [lia |].
  cbn -[wrap_int Z.of_nat Z.pow backoff].
  rewrite wrap_int_small by lia.
  destruct r as [|r'].
  - cbn. split; [eauto | split; [lia | reflexivity]].
  - specialize (IH (attempt + 1) (Some "rate limit exceeded after exceeding retries"%string)
                  (n + 1) (backoff p attempt :: sl)).
    cbv zeta in IH.
    destruct IH as (Herr & Hcount & Hflag); [lia | lia | lia |].
    split; [exact Herr | split; [| exact Hflag]].
    etransitivity; [exact Hcount | lia].
Qed.

(** C3. Whatever the client and the mutation: when every reply of the
    mutation, from the client's state at the call on, is a failure with a
    retryable condition (the status of the rate limit, or an error of the
    rate-limit type) and the budget is [maxRetries = R] (the first attempt
    counts, so R is at least one), the mutation is attempted exactly R
    times and the call returns an error; when the first reply is such a
    failure and the second a success, the mutation is attempted exactly
    twice and the call succeeds, as soon as the budget allows a second
    attempt. The mock client of the package's tests counts the same
    attempts itself: R when it is always limited, two when it fails
    once. *)
Theorem retry_attempts_bounded {Client : Type} (p : NS1Provider)
    (operation : Client -> reply * Client) (c0 : Client) (sl : list Z) :
  let out := retryWithBackoff p (counted operation)
               {| client := (c0, 0%nat); slept := sl |} in
  (forall Inv : Client -> Prop,
      Inv c0 ->
      (forall c, Inv c ->
                 fails_retryably (fst (operation c)) /\ Inv (snd (operation c))) ->
      1 <= maxRetries p ->
      Z.of_nat (snd (client (snd out))) = maxRetries p /\ is_Some (fst out))
  /\ (fails_retryably (fst (operation c0)) ->
      snd (fst (operation (snd (operation c0)))) = None ->
      2 <= maxRetries p ->
      snd (client (snd out)) = 2%nat /\ fst out = None)
  /\ (1 <= maxRetries p < 2 ^ 63 ->
      let out := retryWithBackoff p CreateRecord
                   {| client := {| createAttempts := 0; alwaysRateLimit := true |};
                      slept := sl |} in
      createAttempts (client (snd out)) = maxRetries p /\ is_Some (fst out))
  /\ (2 <= maxRetries p ->
      let out := retryWithBackoff p CreateRecord
                   {| client := {| createAttempts := 0; alwaysRateLimit := false |};
                      slept := sl |} in
      createAttempts (client (snd out)) = 2 /\ fst out = None).
Proof.
  intros out. split; [| split; [| split]].
  - intros Inv H0 Hstep HR.
    destruct (retry_from_always_failing p operation Inv Hstep
                (Z.to_nat (maxRetries p)) 1 None c0 0%nat sl) as [Herr Hcount];
      [lia | exact H0 |].
    unfold out, ns1.retryWithBackoff. split; [| exact Herr].
    rewrite Hcount. lia.
  - intros Hfail Hok HR. unfold out, ns1.retryWithBackoff.
    apply fails_retryably_retryable in Hfail as (err & Herr & Hretry).
    destruct (Z.to_nat (maxRetries p)) as [|[|r]] eqn:E; try lia.
    rewrite (retry_from_retry p (counted operation) (S r) 1 None
               {| client := (c0, 0%nat); slept := sl |}
               (fst (operation c0)) (snd (operation c0), 1%nat) err
               (counted_eq operation c0 0) Herr Hretry).
    cbn [slept client].
    rewrite (retry_from_success p (counted operation) r (1 + 1) (Some err)
               {| client := (snd (operation c0), 1%nat);
                  slept := backoff p 1 :: sl |}
               (fst (operation (snd (operation c0))))
               (snd (operation (snd (operation c0))), 2%nat)
               (counted_eq operation (snd (operation c0)) 1) Hok).
    split; reflexivity.
  - intros HR out'.
    destruct (retry_from_always_limited p (Z.to_nat (maxRetries p)) 1 None 0 sl)
      as (Herr & Hcount & _); try lia.
    unfold out', ns1.retryWithBackoff. split; [| exact Herr].
    rewrite Hcount. lia.
  - intros HR out'. unfold out', ns1.retryWithBackoff.
    destruct (Z.to_nat (maxRetries p)) as [|[|r]] eqn:E; try lia.
    cbn. split; reflexivity.
Qed.

(** C4. With a default TTL of 300 configured, the record built from an
    endpoint without a TTL has the TTL 300, and the record built from an
    endpoint with the TTL 3600 has the TTL 3600. *)
Theorem ns1BuildRecord_ttl (p : NS1Provider) (zoneName : string)
    (change : ns1Change) :
  minTTLSeconds p = 300 ->
  (RecordTTL (Endpoint change) = 0 ->
   TTL (ns1BuildRecord p zoneName change) = 300)
  /\ (RecordTTL (Endpoint change) = 3600 ->
      TTL (ns1BuildRecord p zoneName change) = 3600).
Proof.
  intros Hmin. unfold ns1BuildRecord. simpl.
  split; intros ->; simpl; [exact Hmin | reflexivity].
Qed.

End NS1Facts.

(** ** package plan *)

Section IndexFacts.
Import endpoint plan.

Lemma has_key_true (k : key) (e : Endpoint) :
  has_key k e = true <-> endpointKey e = k.
Proof. unfold has_key. apply bool_decide_eq_true. Qed.

Lemma has_key_false (k : key) (e : Endpoint) :
  has_key k e = false <-> endpointKey e <> k.
Proof. unfold has_key. apply bool_decide_eq_false. Qed.

Lemma has_key_own (e : Endpoint) : has_key (endpointKey e) e = true.
Proof. now apply has_key_true. Qed.

Lemma byKey_Some (k : key) (l : list Endpoint) (e : Endpoint) :
  byKey k l = Some e -> In e l /\ endpointKey e = k.
Proof.
  unfold byKey. intros H. apply List.find_some in H as [Hin Hk].
  split; [exact Hin | now apply has_key_true].
Qed.

Lemma byKey_None (k : key) (l : list Endpoint) :
  byKey k l = None <-> (forall e, In e l -> endpointKey e <> k).
Proof.
  unfold byKey. split.
  - intros H e Hin. apply has_key_false. exact (List.find_none _ _ H e Hin).
  - intros H. induction l as [|x l IH]; [reflexivity |]. simpl.
    destruct (has_key k x) eqn:E.
    + apply has_key_true in E. exfalso. apply (H x); [now left | exact E].
    + apply IH. intros e He. apply H. now right.
Qed.

Lemma byKey_cons (k : key) (x : Endpoint) (l : list Endpoint) :
  byKey k (x :: l) = if has_key k x then Some x else byKey k l.
Proof. reflexivity. Qed.

Lemma byKey_app (k : key) (l1 l2 : list Endpoint) :
  byKey k (l1 ++ l2)
  = match byKey k l1 with Some e => Some e | None => byKey k l2 end.
Proof.
  induction l1 as [|x l1 IH]; [reflexivity |].
  simpl app. rewrite !byKey_cons. destruct (has_key k x); [reflexivity | exact IH].
Qed.

(** A map that keeps keys commutes with the look-up. *)
Lemma byKey_map (f : Endpoint -> Endpoint) (k : key) (l : list Endpoint) :
  (forall e, endpointKey (f e) = endpointKey e) ->
  byKey k (map f l) = option_map f (byKey k l).
Proof.
  intros Hf. induction l as [|x l IH]; [reflexivity |].
  simpl map. rewrite !byKey_cons.
  unfold has_key at 1. rewrite Hf. fold (has_key k x).
  destruct (has_key k x); [reflexivity | exact IH].
Qed.

(** A filter that looks at keys only keeps or drops a key as a whole. *)
Lemma byKey_filter (p : Endpoint -> bool) (q : key -> bool) (k : key)
    (l : list Endpoint) :
  (forall e, p e = q (endpointKey e)) ->
  byKey k (List.filter p l) = if q k then byKey k l else None.
Proof.
  intros Hp. induction l as [|x l IH]; cbn [List.filter].
  - now destruct (q k).
  - destruct (p x) eqn:Epx; rewrite ?byKey_cons, IH;
      destruct (has_key k x) eqn:E; try reflexivity;
      apply has_key_true in E; rewrite Hp, E in Epx; now rewrite Epx.
Qed.

Lemma byKey_index (k : key) (l : list Endpoint) :
  byKey k (index l) = byKey k l.
Proof.
  induction l as [|x l IH]; [reflexivity |].
  simpl index. rewrite !byKey_cons.
  destruct (has_key k x) eqn:E; [reflexivity |].
  rewrite (byKey_filter _ (fun k' => negb (bool_decide (k' = endpointKey x))));
    [| reflexivity].
  apply has_key_false in E.
  rewrite bool_decide_eq_false_2 by congruence. exact IH.
Qed.

(** The index holds, for each key, the first endpoint with it. *)
Lemma In_index (e : Endpoint) (l : list Endpoint) :
  In e (index l) <-> byKey (endpointKey e) l = Some e.
Proof.
  induction l as [|x l IH]; cbn [index].
  - split; [intros [] | discriminate].
  - rewrite byKey_cons. split.
    + intros [-> | H].
      * now rewrite has_key_own.
      * apply List.filter_In in H as [Hin Hk].
        apply negb_true_iff, has_key_false in Hk.
        destruct (has_key (endpointKey e) x) eqn:E.
        -- apply has_key_true in E. congruence.
        -- now apply IH.
    + destruct (has_key (endpointKey e) x) eqn:E.
      * intros [= ->]. now left.
      * intros H. right. apply List.filter_In. split; [now apply IH |].
        apply negb_true_iff, has_key_false.
        apply has_key_false in E. congruence.
Qed.

Lemma byKey_In_index (k : key) (e : Endpoint) (l : list Endpoint) :
  byKey k l = Some e -> In e (index l).
Proof.
  intros H. apply In_index.
  destruct (byKey_Some _ _ _ H) as [_ <-]. exact H.
Qed.

(** Where no two endpoints share a key, every endpoint is the entry of
    its key. *)
Lemma byKey_unique (l : list Endpoint) (c : Endpoint) :
  NoDup (map endpointKey l) -> In c l -> byKey (endpointKey c) l = Some c.
Proof.
  induction l as [|x l IH]; intros Hnd Hin; [destruct Hin |].
  cbn [map] in Hnd. apply NoDup_cons in Hnd as [Hx Hnd].
  rewrite byKey_cons. destruct Hin as [-> | Hin].
  - now rewrite has_key_own.
  - rewrite (proj2 (has_key_false (endpointKey c) x)); [now apply IH |].
    intros E. apply Hx. rewrite E.
    apply list_elem_of_In, List.in_map, Hin.
Qed.

Lemma filter_none {A : Type} (p : A -> bool) (l : list A) :
  (forall x, In x l -> p x = false) -> List.filter p l = [].
Proof.
  induction l as [|x l IH]; intros H; [reflexivity |]. simpl.
  rewrite (H x) by now left. apply IH. intros y Hy. apply H. now right.
Qed.

End IndexFacts.

Section PlanFacts.
Import endpoint plan.

Context (owns : Endpoint -> bool).
Context (ManagedRecords ExcludeRecords : list string).
Context (domainFilter : string -> bool).

Local Abbreviation Calculate :=
  (Calculate owns ManagedRecords ExcludeRecords domainFilter).
Local Abbreviation delete_candidates :=
  (delete_candidates owns ManagedRecords ExcludeRecords domainFilter).
Local Abbreviation owned_creates := (owned_creates owns).
Local Abbreviation owned_updates := (owned_updates owns).
Local Abbreviation owned_deletes := (owned_deletes owns).

Lemma merged_key (c d : Endpoint) : endpointKey (merged c d) = endpointKey d.
Proof. reflexivity. Qed.

Lemma merged_self (d : Endpoint) : merged d d = d.
Proof.
  destruct d. unfold merged. simpl. f_equal. apply map_eq. intros i.
  rewrite lookup_union. now destruct (_ !! i).
Qed.

Lemma merged_again (c d : Endpoint) : merged (merged c d) d = merged c d.
Proof.
  unfold merged. simpl. f_equal. apply map_eq. intros i.
  rewrite !lookup_union.
  destruct (Labels c !! i), (Labels d !! i); reflexivity.
Qed.

Lemma differs_same (a : Endpoint) : differs a a = false.
Proof.
  unfold differs. rewrite !bool_decide_eq_true_2 by reflexivity.
  now rewrite Z.eqb_refl.
Qed.

(** A current endpoint that has taken the desired targets, TTL and
    properties differs from the desired endpoint by its labels only. *)
Lemma differs_merged (c d : Endpoint) :
  differs (merged c d) d = true -> Labels c ∪ Labels d <> Labels d.
Proof.
  unfold differs, merged. cbn [Targets RecordTTL Labels].
  unfold property_map. cbn [ProviderSpecific].
  rewrite !bool_decide_eq_true_2 by reflexivity. rewrite Z.eqb_refl.
  cbn [negb orb]. intros H E.
  rewrite bool_decide_eq_true_2 in H by exact E. discriminate.
Qed.

(** The updates that survive the ownership check, one desired endpoint
    at a time. *)
Lemma In_owned_updates (current desired : list Endpoint) (u : Endpoint * Endpoint) :
  In u (owned_updates (update_candidates current desired)) <->
  exists d, In d (index desired)
            /\ byKey (endpointKey d) current = Some (fst u)
            /\ snd u = merged (fst u) d
            /\ differs (fst u) d = true
            /\ owns (fst u) = true.
Proof.
  unfold plan.owned_updates, update_candidates. rewrite List.filter_In.
  rewrite <- list_elem_of_In, list_elem_of_omap.
  setoid_rewrite list_elem_of_In.
  unfold update_candidate. split.
  - intros [(d & Hd & Hu) Ho]. exists d. split; [exact Hd |].
    destruct (byKey (endpointKey d) current) as [c|]; [| discriminate].
    destruct (differs c d) eqn:E; [| discriminate].
    injection Hu as <-. simpl in *. auto.
  - intros (d & Hd & Hc & Hn & Hdiff & Ho). split; [| exact Ho].
    exists d. split; [exact Hd |]. rewrite Hc, Hdiff, <- Hn.
    now destruct u.
Qed.

Lemma In_delete_candidates (current desired : list Endpoint) (c : Endpoint) :
  In c (owned_deletes (delete_candidates current desired)) <->
  In c (index current)
  /\ byKey (endpointKey c) desired = None
  /\ owns c = true
  /\ type_managed ManagedRecords ExcludeRecords c = true
  /\ domainFilter (DNSName c) = true.
Proof.
  unfold plan.owned_deletes, plan.delete_candidates.
  rewrite !List.filter_In, !andb_true_iff, negb_true_iff, bool_decide_eq_false.
  rewrite <- eq_None_not_Some. tauto.
Qed.

Lemma byKey_creates (current desired : list Endpoint) (k : key) :
  byKey k (owned_creates current (create_candidates current desired))
  = match byKey k current with
    | Some _ => None
    | None => byKey k desired
    end.
Proof.
  unfold plan.owned_creates, create_candidates.
  rewrite (byKey_filter _ (fun k' => match byKey k' current with
                                     | Some c => owns c
                                     | None => true
                                     end)) by reflexivity.
  rewrite (byKey_filter _ (fun k' => negb (bool_decide (is_Some (byKey k' current)))))
    by reflexivity.
  rewrite byKey_index.
  destruct (byKey k current) as [c|].
  - rewrite bool_decide_eq_true_2 by eauto. simpl. now destruct (owns c).
  - rewrite bool_decide_eq_false_2; [reflexivity |]. intros [x Hx]. discriminate.
Qed.

Local Abbreviation update_written := (update_written owns).

Lemma update_written_key (current : list Endpoint) (d n : Endpoint) :
  update_written current d = Some n -> endpointKey n = endpointKey d.
Proof.
  unfold plan.update_written.
  destruct (byKey _ _) as [c|]; [| discriminate].
  destruct (_ && _); [| discriminate].
  intros [= <-]. apply merged_key.
Qed.

Lemma UpdateNew_omap (current : list Endpoint) (l : list Endpoint) :
  map snd (owned_updates (omap (update_candidate current) l))
  = omap (update_written current) l.
Proof.
  induction l as [|d l IH]; [reflexivity |].
  cbn [omap list_omap]. unfold update_candidate at 1, plan.update_written at 1.
  destruct (byKey (endpointKey d) current) as [c|]; [| exact IH].
  destruct (differs c d); [| exact IH].
  cbn [plan.owned_updates List.filter fst andb].
  destruct (owns c); [cbn [map snd]; f_equal |]; exact IH.
Qed.

(** Look-ups behind an [omap] that keeps keys. *)
Lemma byKey_omap_filter (h : Endpoint -> option Endpoint) (k k0 : key)
    (l : list Endpoint) :
  (forall d n, h d = Some n -> endpointKey n = endpointKey d) ->
  byKey k (omap h (List.filter (fun e => negb (has_key k0 e)) l))
  = if bool_decide (k = k0) then None else byKey k (omap h l).
Proof.
  intros Hh. induction l as [|x l IH]; cbn [List.filter omap list_omap].
  - now destruct (bool_decide _).
  - destruct (has_key k0 x) eqn:E; cbn [negb omap list_omap].
    + rewrite IH. apply has_key_true in E.
      destruct (h x) as [y|] eqn:Ey; [| reflexivity].
      rewrite byKey_cons.
      case_bool_decide as Hk; [reflexivity |].
      rewrite (proj2 (has_key_false k y)); [reflexivity |].
      rewrite (Hh _ _ Ey). congruence.
    + destruct (h x) as [y|] eqn:Ey; [| exact IH].
      rewrite !byKey_cons, IH. apply has_key_false in E.
      case_bool_decide as Hk; [| reflexivity].
      rewrite (proj2 (has_key_false k y)); [reflexivity |].
      rewrite (Hh _ _ Ey). congruence.
Qed.

Lemma byKey_omap_index (h : Endpoint -> option Endpoint) (k : key)
    (l : list Endpoint) :
  (forall d n, h d = Some n -> endpointKey n = endpointKey d) ->
  byKey k (omap h (index l)) = byKey k l ≫= h.
Proof.
  intros Hh. induction l as [|x l IH]; [reflexivity |].
  cbn [index omap list_omap]. rewrite byKey_cons.
  destruct (has_key k x) eqn:E.
  - apply has_key_true in E. cbn [mbind option_bind].
    destruct (h x) as [y|] eqn:Ey.
    + rewrite byKey_cons, (proj2 (has_key_true k y)); [reflexivity |].
      rewrite (Hh _ _ Ey). exact E.
    + rewrite byKey_omap_filter by exact Hh.
      now rewrite bool_decide_eq_true_2.
  - apply has_key_false in E.
    assert (Hrest : byKey k (omap h (List.filter
                       (fun e => negb (has_key (endpointKey x) e)) (index l)))
                    = byKey k l ≫= h).
    { rewrite byKey_omap_filter by exact Hh.
      rewrite bool_decide_eq_false_2 by congruence. exact IH. }
    destruct (h x) as [y|] eqn:Ey; [| exact Hrest].
    rewrite byKey_cons, (proj2 (has_key_false k y)); [exact Hrest |].
    rewrite (Hh _ _ Ey). exact E.
Qed.

Lemma byKey_UpdateNew (current desired : list Endpoint) (k : key) :
  byKey k (map snd (owned_updates (update_candidates current desired)))
  = byKey k desired ≫= update_written current.
Proof.
  unfold update_candidates. rewrite UpdateNew_omap.
  apply byKey_omap_index. apply update_written_key.
Qed.

Lemma updated_by_key (ch : Changes) (c : Endpoint) :
  endpointKey (updated_by ch c) = endpointKey c.
Proof.
  unfold updated_by.
  destruct (byKey (endpointKey c) (UpdateNew ch)) as [n|] eqn:E; [| reflexivity].
  now destruct (byKey_Some _ _ _ E).
Qed.

(** The entry of a key in what the changes leave behind. *)
Lemma byKey_apply (ch : Changes) (current : list Endpoint) (k : key) :
  byKey k (apply ch current)
  = match (if bool_decide (is_Some (byKey k (Delete ch))) then None
           else option_map (updated_by ch) (byKey k current)) with
    | Some e => Some e
    | None => byKey k (Create ch)
    end.
Proof.
  unfold apply. rewrite byKey_app.
  rewrite (byKey_filter _
             (fun k' => negb (bool_decide (is_Some (byKey k' (Delete ch))))))
    by reflexivity.
  rewrite byKey_map by apply updated_by_key.
  now destruct (bool_decide _).
Qed.

Lemma nil_if_no_member {A : Type} (l : list A) :
  (forall x, ~ In x l) -> l = [].
Proof. destruct l as [|x l]; [reflexivity |]. intros H. destruct (H x). now left. Qed.

Section AfterApply.

(** [ch] are changes that a plan for [current] and [desired] came to,
    with the creates of the plan and with deletes of keys that are not
    desired (all three policies give such changes). *)
Context (ch : Changes) (current desired : list Endpoint).
Hypothesis creates_kept :
  Create ch = owned_creates current (create_candidates current desired).
Hypothesis deletes_undesired :
  forall x, In x (Delete ch) -> byKey (endpointKey x) desired = None.

Lemma byKey_applied (d : Endpoint) :
  In d (index desired) ->
  byKey (endpointKey d) (apply ch current)
  = Some (match byKey (endpointKey d) current with
          | Some c => updated_by ch c
          | None => d
          end).
Proof.
  intros Hd. apply In_index in Hd. rewrite byKey_apply.
  rewrite bool_decide_eq_false_2.
  - rewrite creates_kept, byKey_creates.
    destruct (byKey (endpointKey d) current); [reflexivity | exact Hd].
  - intros [x Hx]. destruct (byKey_Some _ _ _ Hx) as [Hin Hk].
    apply deletes_undesired in Hin. congruence.
Qed.

Lemma no_creates_after :
  owned_creates (apply ch current) (create_candidates (apply ch current) desired)
  = [].
Proof.
  unfold create_candidates. rewrite filter_none; [reflexivity |].
  intros d Hd. rewrite (byKey_applied d Hd).
  rewrite bool_decide_eq_true_2 by eauto. reflexivity.
Qed.

(** An update of the plan that follows rewrites a record that the
    applied changes have updated, with the value it has already; the plan
    comes to it when the labels the record kept are not all among the
    desired ones. *)
Lemma updates_after (u : Endpoint * Endpoint) :
  (forall k, byKey k (UpdateNew ch) = byKey k desired ≫= update_written current) ->
  In u (owned_updates (update_candidates (apply ch current) desired)) ->
  snd u = fst u
  /\ exists c d, byKey (endpointKey d) desired = Some d
                 /\ byKey (endpointKey d) current = Some c
                 /\ owns c = true
                 /\ update_written current d = Some (fst u)
                 /\ Labels c ∪ Labels d <> Labels d.
Proof.
  intros Hnew Hu. destruct u as [c' n'].
  apply In_owned_updates in Hu as (d & Hd & Hc & Hn & Hdiff & Ho).
  simpl in Hc, Hn, Hdiff, Ho. cbn [fst snd].
  rewrite (byKey_applied d Hd) in Hc. injection Hc as Hc.
  apply In_index in Hd.
  destruct (byKey (endpointKey d) current) as [c|] eqn:Ec.
  - unfold updated_by in Hc.
    destruct (byKey_Some _ _ _ Ec) as [_ Hk]. rewrite Hk, Hnew in Hc.
    rewrite Hd in Hc. cbn [mbind option_bind] in Hc.
    unfold plan.update_written in Hc. rewrite Ec in Hc.
    destruct (differs c d && owns c) eqn:E; subst c'.
    + apply andb_true_iff in E as [Hcd Hoc]. subst n'.
      split; [apply merged_again |].
      exists c, d. split; [exact Hd |]. split; [exact Ec |].
      split; [exact Hoc |]. split.
      * unfold plan.update_written. now rewrite Ec, Hcd, Hoc.
      * now apply differs_merged.
    + rewrite Hdiff, Ho in E. discriminate.
  - subst c'. rewrite differs_same in Hdiff. discriminate.
Qed.

(** Under a key that the applied changes have updated, what they leave
    is the new side of the update. *)
Lemma applied_under_updated_key (x d m : Endpoint) :
  (forall k, byKey k (UpdateNew ch) = byKey k desired ≫= update_written current) ->
  byKey (endpointKey d) desired = Some d ->
  update_written current d = Some m ->
  In x (apply ch current) ->
  endpointKey x = endpointKey d ->
  x = m.
Proof.
  intros Hnew Hd Hm Hx Hk.
  unfold apply in Hx. apply List.in_app_iff in Hx as [Hx | Hx].
  - apply List.filter_In in Hx as [Hx _].
    apply List.in_map_iff in Hx as (x0 & <- & Hx0).
    rewrite updated_by_key in Hk.
    unfold updated_by. rewrite Hk, Hnew, Hd. cbn [mbind option_bind].
    now rewrite Hm.
  - exfalso. rewrite creates_kept in Hx.
    assert (Hnone : byKey (endpointKey d)
                      (owned_creates current (create_candidates current desired))
                    = None).
    { rewrite byKey_creates. unfold plan.update_written in Hm.
      destruct (byKey (endpointKey d) current); [reflexivity | discriminate]. }
    exact (proj1 (byKey_None _ _) Hnone x Hx Hk).
Qed.

(** What the plan that follows finds to do: nothing to create, and
    updates that rewrite records with their own value; no update when the
    labels of the owned current records are among the desired ones. *)
Lemma updates_after_rewrite :
  (forall k, byKey k (UpdateNew ch) = byKey k desired ≫= update_written current) ->
  let us := owned_updates (update_candidates (apply ch current) desired) in
  map snd us = map fst us
  /\ (forall x n, In x (apply ch current) ->
                  byKey (endpointKey x) (map snd us) = Some n -> n = x)
  /\ ((forall c d, byKey (endpointKey d) desired = Some d ->
                   byKey (endpointKey d) current = Some c ->
                   owns c = true ->
                   Labels c ⊆ Labels d) ->
      us = []).
Proof.
  intros Hnew us. split; [| split].
  - apply List.map_ext_in. intros u Hu.
    now destruct (updates_after u Hnew Hu).
  - intros x n Hx Hn. apply byKey_Some in Hn as [Hn Hk].
    apply List.in_map_iff in Hn as (u & <- & Hu).
    destruct (updates_after u Hnew Hu) as (Hsame & c & d & Hd & _ & _ & Hw & _).
    rewrite Hsame in Hk |- *.
    symmetry. apply (applied_under_updated_key x d (fst u) Hnew Hd Hw Hx).
    rewrite <- Hk. exact (update_written_key _ _ _ Hw).
  - intros Hlabels. apply nil_if_no_member. intros u Hu.
    destruct (updates_after u Hnew Hu) as (_ & c & d & Hd & Hc & Ho & _ & Hne).
    apply Hne. apply map_subseteq_union. exact (Hlabels c d Hd Hc Ho).
Qed.

Lemma no_deletes_after :
  (forall k, byKey k (UpdateNew ch) = byKey k desired ≫= update_written current) ->
  Delete ch = owned_deletes (delete_candidates current desired) ->
  owned_deletes (delete_candidates (apply ch current) desired) = [].
Proof.
  intros Hnew Hdel. apply nil_if_no_member. intros x Hx.
  apply In_delete_candidates in Hx as (Hin & Hdes & Ho & Hty & Hdom).
  apply In_index in Hin. rewrite byKey_apply in Hin.
  rewrite creates_kept, byKey_creates, Hdes in Hin.
  case_bool_decide as Hgone.
  - destruct (byKey (endpointKey x) current); discriminate.
  - destruct (byKey (endpointKey x) current) as [c|] eqn:Ec; [| discriminate].
    cbn [option_map] in Hin. injection Hin as Hin.
    destruct (byKey_Some _ _ _ Ec) as [_ Hk].
    unfold updated_by in Hin. rewrite Hk, Hnew, Hdes in Hin.
    cbn [mbind option_bind] in Hin. subst c.
    apply Hgone.
    assert (Hmem : In x (Delete ch)).
    { rewrite Hdel. apply In_delete_candidates.
      repeat split; auto. now apply (byKey_In_index (endpointKey x)). }
    destruct (byKey (endpointKey x) (Delete ch)) eqn:E; [eauto |].
    exfalso. exact (proj1 (byKey_None _ _) E x Hmem eq_refl).
Qed.

End AfterApply.

(** Changes without creates and deletes, whose updates rewrite the
    records with their own value, leave the records as they are. *)
Lemma apply_same (ch : Changes) (l : list Endpoint) :
  Create ch = [] ->
  Delete ch = [] ->
  (forall x n, In x l -> byKey (endpointKey x) (UpdateNew ch) = Some n -> n = x) ->
  apply ch l = l.
Proof.
  intros Hc Hd Hsame. unfold apply. rewrite Hc, app_nil_r.
  induction l as [|x l IH]; [reflexivity |].
  cbn [map List.filter].
  assert (Hx : updated_by ch x = x).
  { unfold updated_by.
    destruct (byKey (endpointKey x) (UpdateNew ch)) as [n|] eqn:E; [| reflexivity].
    apply (Hsame x n); [now left | exact E]. }
  rewrite Hx. unfold deleted_by at 1. rewrite Hd. cbn [byKey List.find].
  rewrite bool_decide_eq_false_2 by (intros [? ?]; discriminate).
  cbn [negb]. f_equal. apply IH. intros y n Hy. apply Hsame. now right.
Qed.



End PlanFacts.

(* ===================================================================== *)
(** * Further properties of the code *)
(* ===================================================================== *)

(** ** Splitting and joining *)

Section SplitFacts.
Import gostrings.

Lemma append_cons (c : ascii) (a b : string) :
  String c a +:+ b = String c (a +:+ b).
Proof. reflexivity. Qed.

Lemma append_empty_l (b : string) : "" +:+ b = b.
Proof. reflexivity. Qed.

Lemma append_empty_r (a : string) : a +:+ "" = a.
Proof.
  induction a as [|c a IH]; [reflexivity |]. now rewrite append_cons, IH.
Qed.

Lemma bytes_app (a b : string) : bytes (a +:+ b) = bytes a ++ bytes b.
Proof.
  unfold bytes. induction a as [|c a IH]; [reflexivity |].
  rewrite append_cons. cbn [list_ascii_of_string]. now rewrite IH.
Qed.

Lemma bytes_of_list (l : list ascii) : bytes (string_of_list_ascii l) = l.
Proof. apply list_ascii_of_string_of_list_ascii. Qed.

Lemma string_of_list_app (l1 l2 : list ascii) :
  string_of_list_ascii (l1 ++ l2)
  = string_of_list_ascii l1 +:+ string_of_list_ascii l2.
Proof.
  induction l1 as [|c l1 IH]; [reflexivity |].
  cbn [app string_of_list_ascii]. now rewrite append_cons, IH.
Qed.

Lemma append_assoc (a b c : string) : (a +:+ b) +:+ c = a +:+ (b +:+ c).
Proof.
  induction a as [|x a IH]; [reflexivity |]. now rewrite !append_cons, IH.
Qed.

Lemma HasPrefix_empty (s : string) : HasPrefix s "" = true.
Proof. now destruct s. Qed.

Lemma HasPrefix_app (p a : string) : HasPrefix (p +:+ a) p = true.
Proof.
  induction p as [|c p IH]; [apply HasPrefix_empty |].
  rewrite append_cons. cbn [HasPrefix]. now rewrite Ascii.eqb_refl, IH.
Qed.

Lemma TrimPrefix_app (p a : string) : TrimPrefix (p +:+ a) p = a.
Proof.
  unfold TrimPrefix. rewrite HasPrefix_app, len_app.
  replace (len p + len a - len p)%nat with (len a) by lia.
  apply substring_suffix.
Qed.

(** What [TrimSuffix] returns is the front of its argument. *)
Lemma TrimSuffix_front (s suffix : string) :
  exists rest, s = TrimSuffix s suffix +:+ rest.
Proof.
  unfold TrimSuffix. destruct (HasSuffix s suffix) eqn:E.
  - exists suffix. now apply HasSuffix_inv.
  - exists "". now rewrite append_empty_r.
Qed.

Lemma TrimSuffix_bytes (s suffix : string) (c : ascii) :
  In c (bytes (TrimSuffix s suffix)) -> In c (bytes s).
Proof.
  destruct (TrimSuffix_front s suffix) as [rest E]. intros H.
  rewrite E, bytes_app. apply List.in_or_app. now left.
Qed.

(** Replacing the blank by nothing removes the blanks and nothing else. *)
Lemma ReplaceAll_blank (s : string) :
  bytes (ReplaceAll s " " "")
  = List.filter (fun c => negb (Ascii.eqb c " ")) (bytes s).
Proof.
  unfold ReplaceAll, bytes. induction s as [|c s IH]; [reflexivity |].
  cbn [replace_from HasPrefix list_ascii_of_string List.filter].
  rewrite HasPrefix_empty, andb_true_r.
  destruct (Ascii.eqb c " "); cbn [negb len String.length].
  - rewrite append_empty_l. exact IH.
  - cbn [list_ascii_of_string]. now rewrite IH.
Qed.

(** Splitting at a one-byte separator. *)
Section OneByte.

Context (x : ascii).

Lemma split_from_cons (cur : list ascii) (c : ascii) (s : string) :
  split_from (String x "") 0 cur (String c s)
  = if Ascii.eqb c x
    then string_of_list_ascii (rev cur) :: split_from (String x "") 0 [] s
    else split_from (String x "") 0 (c :: cur) s.
Proof.
  cbn [split_from HasPrefix]. rewrite HasPrefix_empty, andb_true_r.
  now destruct (Ascii.eqb c x).
Qed.

Lemma split_from_nonempty (s : string) :
  forall cur, split_from (String x "") 0 cur s <> [].
Proof.
  induction s as [|c s IH]; intros cur; [discriminate |].
  rewrite split_from_cons. destruct (Ascii.eqb c x); [discriminate | apply IH].
Qed.

Lemma split_from_length (s : string) :
  forall cur,
    length (split_from (String x "") 0 cur s)
    = S (length (List.filter (fun c => Ascii.eqb c x) (bytes s))).
Proof.
  induction s as [|c s IH]; intros cur; [reflexivity |].
  rewrite split_from_cons. unfold bytes.
  cbn [list_ascii_of_string List.filter].
  destruct (Ascii.eqb c x); cbn [length]; now rewrite IH.
Qed.

Lemma split_from_pieces (s : string) :
  forall cur,
    ~ In x cur ->
    Forall (fun piece =>
              ~ In x (bytes piece)
              /\ forall c, In c (bytes piece) -> In c cur \/ In c (bytes s))
      (split_from (String x "") 0 cur s).
Proof.
  induction s as [|c s IH]; intros cur Hcur.
  - cbn [split_from]. constructor; [| constructor].
    rewrite bytes_of_list. split.
    + intros H. apply Hcur. now apply List.in_rev.
    + intros c H. left. now apply List.in_rev.
  - rewrite split_from_cons. unfold bytes at 3. cbn [list_ascii_of_string].
    destruct (Ascii.eqb_spec c x) as [-> | Hne].
    + constructor.
      * rewrite bytes_of_list. split.
        -- intros H. apply Hcur. now apply List.in_rev.
        -- intros c H. left. now apply List.in_rev.
      * eapply List.Forall_impl; [| apply (IH []); intros []].
        intros piece [Hx Hin]. split; [exact Hx |].
        intros c Hc. destruct (Hin c Hc) as [[] | H]. right. now right.
    + eapply List.Forall_impl; [| apply (IH (c :: cur))].
      * intros piece [Hx Hin]. split; [exact Hx |].
        intros c' Hc. destruct (Hin c' Hc) as [[<- | H] | H].
        -- right. now left.
        -- now left.
        -- right. now right.
      * intros [E | H]; [congruence | contradiction].
Qed.

Lemma Join_cons (piece : string) (l : list string) (sep : string) :
  l <> [] -> Join (piece :: l) sep = piece +:+ sep +:+ Join l sep.
Proof. destruct l; [congruence | reflexivity]. Qed.

Lemma split_from_join (s : string) :
  forall cur,
    Join (split_from (String x "") 0 cur s) (String x "")
    = string_of_list_ascii (rev cur) +:+ s.
Proof.
  induction s as [|c s IH]; intros cur.
  - cbn [split_from Join]. now rewrite append_empty_r.
  - rewrite split_from_cons. destruct (Ascii.eqb_spec c x) as [-> | Hne].
    + rewrite Join_cons by apply split_from_nonempty. now rewrite IH.
    + rewrite IH. cbn [rev]. rewrite string_of_list_app, append_assoc.
      reflexivity.
Qed.

End OneByte.

End SplitFacts.

(** ** Annotations (source/source.go) *)

Section AnnotationFacts.
Import gostrings endpoint source.

Context (targetAnnotationKey internalHostnameAnnotationKey : string).

Local Abbreviation getTargetsFromTargetAnnotation :=
  (getTargetsFromTargetAnnotation targetAnnotationKey).
Local Abbreviation getInternalHostnamesFromAnnotations :=
  (getInternalHostnamesFromAnnotations internalHostnameAnnotationKey).

Lemma filter_commas_of_unblanked (l : list ascii) :
  List.filter (fun c => Ascii.eqb c ",")
    (List.filter (fun c => negb (Ascii.eqb c " ")) l)
  = List.filter (fun c => Ascii.eqb c ",") l.
Proof.
  induction l as [|c l IH]; [reflexivity |]. cbn [List.filter].
  destruct (Ascii.eqb_spec c " ") as [-> | Hb]; cbn [negb List.filter].
  - exact IH.
  - now rewrite IH.
Qed.

Lemma split_unblanked (annotation : string) :
  Forall (fun piece => ~ In " "%char (bytes piece) /\ ~ In ","%char (bytes piece))
    (Split (ReplaceAll annotation " " "") ",").
Proof.
  unfold Split.
  eapply List.Forall_impl;
    [| apply (split_from_pieces ","%char (ReplaceAll annotation " " "") []);
       intros []].
  intros piece [Hcomma Hin]. split; [| exact Hcomma].
  intros Hblank. destruct (Hin _ Hblank) as [[] | H].
  rewrite ReplaceAll_blank in H. apply List.filter_In in H as [_ H].
  discriminate.
Qed.

(** X1. [splitHostnameAnnotation] never returns an empty list: it gives
    one piece more than the annotation has commas (one empty piece for an
    empty annotation), and no piece holds a blank or a comma. *)
Theorem splitHostnameAnnotation_pieces (annotation : string) :
  splitHostnameAnnotation annotation <> []
  /\ length (splitHostnameAnnotation annotation)
     = S (length (List.filter (fun c => Ascii.eqb c ",") (bytes annotation)))
  /\ Forall (fun piece =>
               ~ In " "%char (bytes piece) /\ ~ In ","%char (bytes piece))
       (splitHostnameAnnotation annotation).
Proof.
  unfold splitHostnameAnnotation, Split. repeat split.
  - apply split_from_nonempty.
  - rewrite split_from_length, ReplaceAll_blank. f_equal. f_equal.
    apply filter_commas_of_unblanked.
  - apply split_unblanked.
Qed.

(** X2. Joining the pieces of [splitHostnameAnnotation] with commas gives
    the annotation back without its blanks, and nothing but the blanks is
    lost. *)
Theorem splitHostnameAnnotation_join (annotation : string) :
  bytes (Join (splitHostnameAnnotation annotation) ",")
  = List.filter (fun c => negb (Ascii.eqb c " ")) (bytes annotation).
Proof.
  unfold splitHostnameAnnotation, Split.
  rewrite split_from_join. cbn [rev string_of_list_ascii].
  rewrite append_empty_l. apply ReplaceAll_blank.
Qed.

Lemma getTargets_unfold (annotations : gmap string string) :
  getTargetsFromTargetAnnotation annotations
  = match annotations !! targetAnnotationKey with
    | Some targetAnnotation =>
        if String.eqb targetAnnotation "" then []
        else map (fun piece => TrimSuffix piece ".")
               (Split (ReplaceAll targetAnnotation " " "") ",")
    | None => []
    end.
Proof.
  unfold source.getTargetsFromTargetAnnotation.
  destruct (annotations !! targetAnnotationKey) as [a|]; [| reflexivity].
  destruct (String.eqb a ""); cbn [negb]; [reflexivity |].
  now rewrite fold_append_map.
Qed.

(** X3. [getTargetsFromTargetAnnotation] returns no target exactly when the
    target annotation is missing or empty; an annotation of blanks only is
    neither, and gives one (empty) target. *)
Theorem getTargetsFromTargetAnnotation_none_iff
    (annotations : gmap string string) :
  getTargetsFromTargetAnnotation annotations = []
  <-> annotations !! targetAnnotationKey = None
      \/ annotations !! targetAnnotationKey = Some "".
Proof.
  rewrite getTargets_unfold.
  destruct (annotations !! targetAnnotationKey) as [a|]; [| tauto].
  destruct (String.eqb_spec a "") as [-> | Hne]; [tauto |].
  split.
  - intros H. apply map_eq_nil in H.
    exfalso. exact (split_from_nonempty ","%char _ _ H).
  - intros [H | [= H]]; [discriminate | contradiction].
Qed.

(** X4. For a target annotation that is set and not empty,
    [getTargetsFromTargetAnnotation] returns one target more than the
    annotation has commas; and no target it returns holds a blank or a
    comma. *)
Theorem getTargetsFromTargetAnnotation_targets
    (annotations : gmap string string) :
  Forall (fun target =>
            ~ In " "%char (bytes target) /\ ~ In ","%char (bytes target))
    (getTargetsFromTargetAnnotation annotations)
  /\ (forall targetAnnotation,
        annotations !! targetAnnotationKey = Some targetAnnotation ->
        targetAnnotation <> "" ->
        length (getTargetsFromTargetAnnotation annotations)
        = S (length (List.filter (fun c => Ascii.eqb c ",")
                       (bytes targetAnnotation)))).
Proof.
  rewrite getTargets_unfold. split.
  - destruct (annotations !! targetAnnotationKey) as [a|]; [| constructor].
    destruct (String.eqb a ""); [constructor |].
    apply List.Forall_map.
    eapply List.Forall_impl; [| apply split_unblanked].
    intros piece [Hb Hc].
    split; intros H; apply TrimSuffix_bytes in H; contradiction.
  - intros a -> Hne.
    destruct (String.eqb_spec a "") as [E | _]; [contradiction |].
    rewrite length_map. unfold Split.
    rewrite split_from_length, ReplaceAll_blank. f_equal. f_equal.
    apply filter_commas_of_unblanked.
Qed.

(** X5. [getInternalHostnamesFromAnnotations] returns no host name exactly
    when the annotation is missing; an annotation that is set, the empty
    one too, gives at least one host name (the empty annotation gives the
    empty host name). *)
Theorem getInternalHostnamesFromAnnotations_none_iff
    (annotations : gmap string string) :
  (getInternalHostnamesFromAnnotations annotations = []
   <-> annotations !! internalHostnameAnnotationKey = None)
  /\ (annotations !! internalHostnameAnnotationKey = Some ""
      -> getInternalHostnamesFromAnnotations annotations = [""]).
Proof.
  unfold source.getInternalHostnamesFromAnnotations. split.
  - destruct (annotations !! internalHostnameAnnotationKey) as [a|]; [| tauto].
    split; [| discriminate]. intros H. exfalso.
    exact (split_from_nonempty ","%char _ _ H).
  - intros ->. reflexivity.
Qed.

End AnnotationFacts.

(** ** Provider-specific annotations (source/source.go) *)

Section ProviderSpecificFacts.
Import gostrings endpoint source.

Context (aliasAnnotationKey : string).

Local Abbreviation getAliasFromAnnotations :=
  (getAliasFromAnnotations aliasAnnotationKey).
Local Abbreviation fixed_properties := (fixed_properties aliasAnnotationKey).
Local Abbreviation getProviderSpecificAnnotations_in :=
  (getProviderSpecificAnnotations_in aliasAnnotationKey).
Local Abbreviation getProviderSpecificAnnotations :=
  (getProviderSpecificAnnotations aliasAnnotationKey).

(** The loop adds to the properties what each entry contributes, in the
    order of the visit. *)
Lemma visit_properties (l : list (string * string))
    (acc : list ProviderSpecificProperty * string) :
  fst (fold_left visit l acc) = fst acc ++ flat_map property_of l.
Proof.
  revert acc. induction l as [|[k v] l IH]; intros [props sid].
  - cbn. now rewrite app_nil_r.
  - cbn [fold_left flat_map]. rewrite IH. rewrite app_assoc. f_equal.
    unfold property_of, visit.
    repeat match goal with
           | |- context [if ?b then _ else _] => destruct b
           end; cbn [fst]; now rewrite ?app_nil_r.
Qed.

(** The set identifier after the loop is the value of the entry with the
    key [SetIdentifierKey], when no key comes twice. *)
Lemma visit_setIdentifier (l : list (string * string)) :
  NoDup (map fst l) ->
  forall acc,
    snd (fold_left visit l acc)
    = default (snd acc) ((list_to_map l : gmap string string) !! SetIdentifierKey).
Proof.
  induction l as [|[k v] l IH]; intros Hnd [props sid]; [reflexivity |].
  cbn [map fst] in Hnd. apply NoDup_cons in Hnd as [Hk Hnd].
  cbn [fold_left list_to_map foldr]. rewrite (IH Hnd).
  unfold visit. destruct (String.eqb_spec k SetIdentifierKey) as [-> | Hne].
  - cbn [snd]. rewrite lookup_insert_eq.
    rewrite (not_elem_of_list_to_map_1 _ _ Hk). reflexivity.
  - rewrite lookup_insert_ne by exact Hne.
    repeat match goal with
           | |- context [if ?b then _ else _] => destruct b
           end; reflexivity.
Qed.

(** X6. Whatever the order in which the loop of
    [getProviderSpecificAnnotations] visits the annotations, the set
    identifier it returns is the value of the set-identifier annotation,
    and the empty string when there is none. *)
Theorem getProviderSpecificAnnotations_setIdentifier
    (visited : list (string * string)) (annotations : gmap string string) :
  visited ≡ₚ map_to_list annotations ->
  snd (getProviderSpecificAnnotations_in visited annotations)
  = default "" (annotations !! SetIdentifierKey).
Proof.
  intros Hperm. unfold source.getProviderSpecificAnnotations_in.
  assert (Hnd : NoDup (map fst visited)).
  { rewrite Hperm. apply NoDup_fst_map_to_list. }
  rewrite (visit_setIdentifier visited Hnd). cbn [snd].
  rewrite (list_to_map_proper visited (map_to_list annotations) Hnd Hperm).
  now rewrite list_to_map_to_list.
Qed.

(** X7. The order of the visit changes nothing but the order of the
    properties: under any two orders the loop returns the same set
    identifier and the same properties up to their arrangement, behind
    the same fixed ones. *)
Theorem getProviderSpecificAnnotations_order
    (visited visited' : list (string * string))
    (annotations : gmap string string) :
  visited ≡ₚ map_to_list annotations ->
  visited' ≡ₚ map_to_list annotations ->
  snd (getProviderSpecificAnnotations_in visited annotations)
  = snd (getProviderSpecificAnnotations_in visited' annotations)
  /\ exists looped looped',
      fst (getProviderSpecificAnnotations_in visited annotations)
      = fixed_properties annotations ++ looped
      /\ fst (getProviderSpecificAnnotations_in visited' annotations)
         = fixed_properties annotations ++ looped'
      /\ looped ≡ₚ looped'.
Proof.
  intros Hperm Hperm'. split.
  - unfold source.getProviderSpecificAnnotations_in.
    assert (Hnd : NoDup (map fst visited)).
    { rewrite Hperm. apply NoDup_fst_map_to_list. }
    assert (Hnd' : NoDup (map fst visited')).
    { rewrite Hperm'. apply NoDup_fst_map_to_list. }
    rewrite (visit_setIdentifier visited Hnd), (visit_setIdentifier visited' Hnd').
    rewrite (list_to_map_proper visited visited' Hnd); [reflexivity |].
    now rewrite Hperm, Hperm'.
  - exists (flat_map property_of visited), (flat_map property_of visited').
    unfold source.getProviderSpecificAnnotations_in.
    rewrite !visit_properties. cbn [fst]. repeat split.
    rewrite Hperm, Hperm'. reflexivity.
Qed.

Lemma property_of_named (kv : string * string) :
  Forall (fun p =>
            HasPrefix (Name p) "aws/" = true
            \/ HasPrefix (Name p) "scw/" = true
            \/ HasPrefix (Name p) "ibmcloud-" = true)
    (property_of kv).
Proof.
  destruct kv as [k v]. unfold property_of, visit.
  repeat match goal with
         | |- context [if ?b then _ else _] => destruct b
         end; cbn [fst app]; try apply List.Forall_nil;
    (apply List.Forall_cons; [cbn [Name] | apply List.Forall_nil]).
  - left. apply (HasPrefix_app "aws/").
  - right. left. apply (HasPrefix_app "scw/").
  - right. right. apply (HasPrefix_app "ibmcloud-").
Qed.

(** X8. Every property that [getProviderSpecificAnnotations] returns is
    named after the Cloudflare annotation, after the AWS load-balancer
    annotation, "alias" (with the value "true"), or by one of the prefixes
    "aws/", "scw/" and "ibmcloud-"; and the property alias=true is among
    them exactly when the alias annotation has the value "true". The
    order of the visit plays no part. *)
Theorem getProviderSpecificAnnotations_names
    (visited : list (string * string)) (annotations : gmap string string) :
  Forall (fun p =>
            Name p = CloudflareProxiedKey
            \/ Name p = AwsLoadBalancerTypeAnnotation
            \/ (Name p = "alias" /\ Value p = "true")
            \/ HasPrefix (Name p) "aws/" = true
            \/ HasPrefix (Name p) "scw/" = true
            \/ HasPrefix (Name p) "ibmcloud-" = true)
    (fst (getProviderSpecificAnnotations_in visited annotations))
  /\ (In {| Name := "alias"; Value := "true" |}
         (fst (getProviderSpecificAnnotations_in visited annotations))
      <-> annotations !! aliasAnnotationKey = Some "true").
Proof.
  unfold source.getProviderSpecificAnnotations_in.
  rewrite visit_properties. cbn [fst].
  assert (Hloop : Forall (fun p =>
                     HasPrefix (Name p) "aws/" = true
                     \/ HasPrefix (Name p) "scw/" = true
                     \/ HasPrefix (Name p) "ibmcloud-" = true)
                    (flat_map property_of visited)).
  { apply List.Forall_flat_map. apply List.Forall_forall.
    intros kv _. apply property_of_named. }
  split.
  - apply List.Forall_app. split.
    + unfold source.fixed_properties.
      destruct (annotations !! CloudflareProxiedKey);
        destruct (annotations !! AwsLoadBalancerTypeAnnotation);
        destruct (getAliasFromAnnotations annotations);
        cbn [app]; repeat (apply List.Forall_cons || apply List.Forall_nil);
        cbn [Name Value]; tauto.
    + eapply List.Forall_impl; [| exact Hloop]. cbn beta. tauto.
  - rewrite List.in_app_iff. split.
    + intros [Hfixed | Hlooped].
      * unfold source.fixed_properties, source.getAliasFromAnnotations in Hfixed.
        destruct (annotations !! aliasAnnotationKey) as [a|] eqn:Ea.
        -- destruct (String.eqb_spec a "true") as [-> | Hne]; [reflexivity |].
           exfalso.
           destruct (annotations !! CloudflareProxiedKey);
             destruct (annotations !! AwsLoadBalancerTypeAnnotation);
             cbn [app In] in Hfixed;
             repeat (destruct Hfixed as [Hfixed | Hfixed];
                     try discriminate Hfixed);
             exact Hfixed.
        -- exfalso.
           destruct (annotations !! CloudflareProxiedKey);
             destruct (annotations !! AwsLoadBalancerTypeAnnotation);
             cbn [app In] in Hfixed;
             repeat (destruct Hfixed as [Hfixed | Hfixed];
                     try discriminate Hfixed);
             exact Hfixed.
      * exfalso.
        pose proof (proj1 (List.Forall_forall _ _) Hloop _ Hlooped) as H.
        cbn [Name] in H. destruct H as [H | [H | H]]; discriminate H.
    + intros Ha. left.
      unfold source.fixed_properties, source.getAliasFromAnnotations.
      rewrite Ha. cbn. apply List.in_or_app. right. now left.
Qed.

(** X9. An annotation whose key is the AWS prefix followed by an attribute
    comes back as the property "aws/<attribute>" with the value of the
    annotation; likewise "scw/<attribute>" for the Scaleway prefix and
    "ibmcloud-<attribute>" for the IBM Cloud prefix. *)
Theorem getProviderSpecificAnnotations_prefixed
    (visited : list (string * string)) (annotations : gmap string string)
    (attr v : string) :
  visited ≡ₚ map_to_list annotations ->
  (annotations !! ("external-dns.alpha.kubernetes.io/aws-" +:+ attr) = Some v ->
   In {| Name := "aws/" +:+ attr; Value := v |}
     (fst (getProviderSpecificAnnotations_in visited annotations)))
  /\ (annotations !! ("external-dns.alpha.kubernetes.io/scw-" +:+ attr) = Some v ->
      In {| Name := "scw/" +:+ attr; Value := v |}
        (fst (getProviderSpecificAnnotations_in visited annotations)))
  /\ (annotations !! ("external-dns.alpha.kubernetes.io/ibmcloud-" +:+ attr)
      = Some v ->
      In {| Name := "ibmcloud-" +:+ attr; Value := v |}
        (fst (getProviderSpecificAnnotations_in visited annotations))).
Proof.
  intros Hperm.
  assert (Hvisit : forall k p,
             annotations !! k = Some v ->
             property_of (k, v) = [p] ->
             In p (fst (getProviderSpecificAnnotations_in visited annotations))).
  { intros k p Hk Hp. unfold source.getProviderSpecificAnnotations_in.
    rewrite visit_properties. apply List.in_or_app. right.
    apply List.in_flat_map. exists (k, v). split.
    - apply list_elem_of_In. rewrite Hperm. now apply elem_of_map_to_list.
    - rewrite Hp. now left. }
  assert (Hset : forall prefix,
             HasPrefix SetIdentifierKey prefix = false ->
             String.eqb (prefix +:+ attr) SetIdentifierKey = false).
  { intros prefix Hno. apply String.eqb_neq. intros E.
    pose proof (HasPrefix_app prefix attr) as H. rewrite E in H. congruence. }
  split; [| split]; intros Hk; apply (Hvisit _ _ Hk);
    unfold property_of, visit; rewrite Hset by reflexivity.
  - rewrite HasPrefix_app, TrimPrefix_app. reflexivity.
  - replace (HasPrefix ("external-dns.alpha.kubernetes.io/scw-" +:+ attr)
               "external-dns.alpha.kubernetes.io/aws-") with false by reflexivity.
    rewrite HasPrefix_app, TrimPrefix_app. reflexivity.
  - replace (HasPrefix ("external-dns.alpha.kubernetes.io/ibmcloud-" +:+ attr)
               "external-dns.alpha.kubernetes.io/aws-") with false by reflexivity.
    replace (HasPrefix ("external-dns.alpha.kubernetes.io/ibmcloud-" +:+ attr)
               "external-dns.alpha.kubernetes.io/scw-") with false by reflexivity.
    rewrite HasPrefix_app, TrimPrefix_app. reflexivity.
Qed.

End ProviderSpecificFacts.

(** ** Endpoints of a host name (source/source.go) *)

Section HostnameFacts.
Import gostrings netip endpoint source.

Context (ParseIP : string -> option IP).
Context (isIPv6String : string -> bool).
Context (NewLabels : gmap string string).

Local Abbreviation suitableType := (suitableType ParseIP).
Local Abbreviation classify := (classify ParseIP isIPv6String).
Local Abbreviation dropped := (dropped ParseIP isIPv6String).
Local Abbreviation goes_to_a := (goes_to_a ParseIP isIPv6String).
Local Abbreviation goes_to_aaaa := (goes_to_aaaa ParseIP isIPv6String).
Local Abbreviation goes_to_cname := (goes_to_cname ParseIP).
Local Abbreviation endpointsForHostname :=
  (endpointsForHostname ParseIP isIPv6String NewLabels).

Lemma suitableType_one_of_three (t : string) :
  suitableType t = "A" \/ suitableType t = "AAAA" \/ suitableType t = "CNAME".
Proof.
  unfold source.suitableType.
  repeat match goal with |- context [if ?b then _ else _] => destruct b end;
    auto.
Qed.

(** The three slices, by the type of a target and whether it is dropped. *)
Lemma goes_to_by_type (t : string) :
  goes_to_a t = String.eqb (suitableType t) "A" && negb (dropped t)
  /\ goes_to_aaaa t = String.eqb (suitableType t) "AAAA" && negb (dropped t)
  /\ goes_to_cname t = String.eqb (suitableType t) "CNAME" && negb (dropped t).
Proof.
  unfold source.goes_to_a, source.goes_to_aaaa, source.goes_to_cname,
    source.dropped, RecordTypeA, RecordTypeAAAA.
  destruct (suitableType_one_of_three t) as [-> | [-> | ->]];
    destruct (isIPv6String t); auto.
Qed.

Lemma slices_partition (targets : list string) :
  List.filter goes_to_a targets ++ List.filter goes_to_aaaa targets
    ++ List.filter goes_to_cname targets
  ≡ₚ List.filter (fun t => negb (dropped t)) targets.
Proof.
  induction targets as [|t ts IH]; [reflexivity |].
  cbn [List.filter].
  destruct (goes_to_by_type t) as (-> & -> & ->).
  destruct (suitableType_one_of_three t) as [E | [E | E]]; rewrite E;
    destruct (dropped t); simpl; try exact IH.
  - now constructor.
  - rewrite <- Permutation_middle. now constructor.
  - rewrite app_assoc, <- Permutation_middle, <- app_assoc. now constructor.
Qed.

(** The slices after the loop, and the endpoints made of them. *)
Lemma endpoints_of_slices (hostname : string) (targets : list string)
    (ttl : TTL) (providerSpecific : list ProviderSpecificProperty)
    (setIdentifier : string) :
  let mk ts ty :=
    {| DNSName := TrimSuffix hostname "."; Targets := ts; RecordType := ty;
       SetIdentifier := setIdentifier; RecordTTL := ttl; Labels := NewLabels;
       ProviderSpecific := providerSpecific |} in
  let present (ts : list string) (ty : string) :=
    match ts with [] => [] | _ => [mk ts ty] end in
  endpointsForHostname hostname targets ttl providerSpecific setIdentifier
  = present (List.filter goes_to_a targets) "A"
    ++ present (List.filter goes_to_aaaa targets) "AAAA"
    ++ present (List.filter goes_to_cname targets) "CNAME".
Proof.
  intros mk present.
  pose proof (classify_fold ParseIP isIPv6String targets
                {| aTargets := []; aaaaTargets := []; cnameTargets := [] |})
    as (Ha & Haaaa & Hc).
  cbn [aTargets aaaaTargets cnameTargets app] in Ha, Haaaa, Hc.
  unfold source.endpointsForHostname. cbv zeta.
  rewrite Ha, Haaaa, Hc.
  destruct (List.filter goes_to_a targets);
    destruct (List.filter goes_to_aaaa targets);
    destruct (List.filter goes_to_cname targets); reflexivity.
Qed.

(** X10. The endpoints of [endpointsForHostname] come in the order A,
    AAAA, CNAME, and the targets of each are the given targets of its
    type that are not dropped, in the order given. *)
Theorem endpointsForHostname_targets_by_type
    (hostname : string) (targets : list string) (ttl : TTL)
    (providerSpecific : list ProviderSpecificProperty) (setIdentifier : string) :
  let endpoints :=
    endpointsForHostname hostname targets ttl providerSpecific setIdentifier in
  sublist (map RecordType endpoints) ["A"; "AAAA"; "CNAME"]
  /\ Forall (fun ep =>
               Targets ep
               = List.filter
                   (fun t => String.eqb (suitableType t) (RecordType ep)
                             && negb (dropped t))
                   targets)
       endpoints.
Proof.
  intros endpoints. unfold endpoints. rewrite endpoints_of_slices.
  assert (Ea : List.filter goes_to_a targets
               = List.filter (fun t => String.eqb (suitableType t) "A"
                                       && negb (dropped t)) targets).
  { apply List.filter_ext. intros t. apply goes_to_by_type. }
  assert (Eaaaa : List.filter goes_to_aaaa targets
               = List.filter (fun t => String.eqb (suitableType t) "AAAA"
                                       && negb (dropped t)) targets).
  { apply List.filter_ext. intros t. apply goes_to_by_type. }
  assert (Ec : List.filter goes_to_cname targets
               = List.filter (fun t => String.eqb (suitableType t) "CNAME"
                                       && negb (dropped t)) targets).
  { apply List.filter_ext. intros t. apply goes_to_by_type. }
  split.
  - destruct (List.filter goes_to_a targets);
      destruct (List.filter goes_to_aaaa targets);
      destruct (List.filter goes_to_cname targets); cbn [app map RecordType];
      repeat first [apply sublist_nil | apply sublist_skip | apply sublist_cons].
  - destruct (List.filter goes_to_a targets) eqn:Fa;
      destruct (List.filter goes_to_aaaa targets) eqn:Faaaa;
      destruct (List.filter goes_to_cname targets) eqn:Fc; cbn [app];
      repeat (apply List.Forall_cons || apply List.Forall_nil);
      cbn [Targets RecordType]; assumption.
Qed.

(** X11. All in all, the targets of the endpoints are the given targets
    that are not dropped, each as often as it was given: no target is
    lost but a dropped one, and none is added. *)
Theorem endpointsForHostname_keeps_targets
    (hostname : string) (targets : list string) (ttl : TTL)
    (providerSpecific : list ProviderSpecificProperty) (setIdentifier : string) :
  concat (map Targets
            (endpointsForHostname hostname targets ttl providerSpecific
               setIdentifier))
  ≡ₚ List.filter (fun t => negb (dropped t)) targets.
Proof.
  rewrite endpoints_of_slices, <- slices_partition.
  destruct (List.filter goes_to_a targets);
    destruct (List.filter goes_to_aaaa targets);
    destruct (List.filter goes_to_cname targets);
    cbn [app map concat Targets]; rewrite ?app_nil_r; reflexivity.
Qed.

(** X12. [endpointsForHostname] returns no endpoint exactly when every
    target is dropped; so it does for no targets at all. *)
Theorem endpointsForHostname_none_iff
    (hostname : string) (targets : list string) (ttl : TTL)
    (providerSpecific : list ProviderSpecificProperty) (setIdentifier : string) :
  endpointsForHostname hostname targets ttl providerSpecific setIdentifier = []
  <-> Forall (fun t => dropped t = true) targets.
Proof.
  rewrite endpoints_of_slices.
  assert (Hkept : List.filter (fun t => negb (dropped t)) targets = []
                  <-> Forall (fun t => dropped t = true) targets).
  { rewrite List.Forall_forall. split.
    - intros H t Ht. destruct (dropped t) eqn:E; [reflexivity |].
      assert (Hin : In t (List.filter (fun t => negb (dropped t)) targets)).
      { apply List.filter_In. split; [exact Ht | now rewrite E]. }
      rewrite H in Hin. destruct Hin.
    - intros H. apply filter_none. intros t Ht. now rewrite (H t Ht). }
  rewrite <- Hkept. pose proof (slices_partition targets) as Hp.
  split.
  - intros H.
    destruct (List.filter goes_to_a targets);
      destruct (List.filter goes_to_aaaa targets);
      destruct (List.filter goes_to_cname targets); try discriminate H.
    cbn [app] in Hp. now apply Permutation_nil_l in Hp.
  - intros H. rewrite H in Hp. apply Permutation_nil_r in Hp.
    apply app_eq_nil in Hp as [-> Hp]. apply app_eq_nil in Hp as [-> ->].
    reflexivity.
Qed.

End HostnameFacts.

(** ** Start-up (controller/execute.go) *)

Section StartupFacts.
Import plan externaldns controller.

Context {ProviderT SourceT RegistryT Filter OCIConfigT : Type}.
Context (newProvider : string -> Config -> Filter
                       -> option ProviderT * option controller.error).
Context (NewCachedProvider : ProviderT -> Z -> ProviderT).
Context (instancePrincipalConfig : string -> OCIConfigT).
Context (LoadOCIConfig : string -> option OCIConfigT * option controller.error).
Context (setZoneCacheDuration : Z -> OCIConfigT -> OCIConfigT).
Context (NewOCIProvider : OCIConfigT -> Config -> Filter
                          -> option ProviderT * option controller.error).
Context (newRegistry : @registry_call ProviderT
                       -> option RegistryT * option controller.error).
Context (NewRegexDomainFilter : string -> option string -> Filter).
Context (NewDomainFilterWithExclusions : list string -> list string -> Filter).
Context (ByNames : Config -> list SourceT * option controller.error).
Context (NewMultiSource : list SourceT -> Config -> SourceT).
Context (NewDedupSource : SourceT -> SourceT).
Context (NewNAT64Source : SourceT -> Config -> SourceT).
Context (NewTargetFilterSource : SourceT -> Config -> SourceT).
Context (ParseLevel : string -> option controller.error).
Context (NewConfig : Config).
Context (ParseFlags : Config -> list string -> Config * option controller.error).
Context (ValidateConfig : Config -> option controller.error).
Context (runOnce : @Controller SourceT RegistryT Filter -> option controller.error).

Local Abbreviation buildOCIProvider :=
  (buildOCIProvider instancePrincipalConfig LoadOCIConfig setZoneCacheDuration
     NewOCIProvider).
Local Abbreviation buildProvider :=
  (buildProvider newProvider NewCachedProvider instancePrincipalConfig
     LoadOCIConfig setZoneCacheDuration NewOCIProvider).
Local Abbreviation selectRegistry := (selectRegistry newRegistry).
Local Abbreviation buildController := (buildController newRegistry).
Local Abbreviation buildSource :=
  (buildSource ByNames NewMultiSource NewDedupSource NewNAT64Source
     NewTargetFilterSource).
Local Abbreviation createDomainFilter :=
  (createDomainFilter NewRegexDomainFilter NewDomainFilterWithExclusions).
Local Abbreviation Execute :=
  (Execute newProvider NewCachedProvider instancePrincipalConfig LoadOCIConfig
     setZoneCacheDuration NewOCIProvider newRegistry NewRegexDomainFilter
     NewDomainFilterWithExclusions ByNames NewMultiSource NewDedupSource
     NewNAT64Source NewTargetFilterSource ParseLevel NewConfig ParseFlags
     ValidateConfig runOnce).

Lemma selectRegistry_returns (cfg : Config) (p : option ProviderT)
    (r : option RegistryT * option controller.error) :
  selectRegistry cfg p = Returns r -> exists call, r = newRegistry call.
Proof.
  unfold controller.selectRegistry.
  repeat match goal with |- context [if ?b then _ else _] => destruct b end;
    intros H; try discriminate H; injection H as <-; eauto.
Qed.

(** X13. [selectRegistry] ends the process exactly for a registry name
    other than "dynamodb", "noop", "txt" and "aws-sd", with the message
    "unknown registry: <name>"; for those four it returns what the
    constructor of the registry returns. *)
Theorem selectRegistry_fatal_iff (cfg : Config) (p : option ProviderT) :
  ((exists msg, selectRegistry cfg p = Fatal msg)
   <-> externaldns.Registry cfg <> "dynamodb"
       /\ externaldns.Registry cfg <> "noop"
       /\ externaldns.Registry cfg <> "txt"
       /\ externaldns.Registry cfg <> "aws-sd")
  /\ (forall msg, selectRegistry cfg p = Fatal msg ->
                  msg = "unknown registry: " +:+ externaldns.Registry cfg)
  /\ (forall r, selectRegistry cfg p = Returns r ->
                exists call, r = newRegistry call).
Proof.
  split; [| split].
  - unfold controller.selectRegistry.
    destruct (String.eqb_spec (externaldns.Registry cfg) "dynamodb");
      [split; [intros [msg Hm]; discriminate Hm
              | intros (H1 & H2 & H3 & H4); contradiction] |].
    destruct (String.eqb_spec (externaldns.Registry cfg) "noop");
      [split; [intros [msg Hm]; discriminate Hm
              | intros (H1 & H2 & H3 & H4); contradiction] |].
    destruct (String.eqb_spec (externaldns.Registry cfg) "txt");
      [split; [intros [msg Hm]; discriminate Hm
              | intros (H1 & H2 & H3 & H4); contradiction] |].
    destruct (String.eqb_spec (externaldns.Registry cfg) "aws-sd");
      [split; [intros [msg Hm]; discriminate Hm
              | intros (H1 & H2 & H3 & H4); contradiction] |].
    split; [intros _; repeat split; assumption | intros _; eexists; reflexivity].
  - intros msg. unfold controller.selectRegistry.
    repeat match goal with |- context [if ?b then _ else _] => destruct b end;
      intros Hm; try discriminate Hm; injection Hm as <-; reflexivity.
  - intros r. apply selectRegistry_returns.
Qed.

(** X14. A controller that [buildController] returns has the policy that
    the table gives for the configured name, the registry that a registry
    constructor returned without an error, and the source, the domain
    filter, the intervals and the record types it was given. *)
Theorem buildController_builds (cfg : Config) (src : option SourceT)
    (p : option ProviderT) (filter : Filter)
    (ctrl : @Controller SourceT RegistryT Filter) :
  buildController cfg src p filter = Returns (inl ctrl) ->
  Policies !! externaldns.Policy cfg = Some (Policy ctrl)
  /\ (exists call, newRegistry call = (Registry ctrl, None))
  /\ Source ctrl = src
  /\ DomainFilter ctrl = filter
  /\ Interval ctrl = externaldns.Interval cfg
  /\ MinEventSyncInterval ctrl = externaldns.MinEventSyncInterval cfg
  /\ ManagedRecordTypes ctrl = ManagedDNSRecordTypes cfg
  /\ ExcludeRecordTypes ctrl = ExcludeDNSRecordTypes cfg.
Proof.
  unfold controller.buildController.
  destruct (Policies !! externaldns.Policy cfg) as [policy|]; [| discriminate].
  destruct (selectRegistry cfg p) as [[reg [err|]] | msg] eqn:Es;
    try discriminate.
  intros [= <-]. cbn. repeat split.
  destruct (selectRegistry_returns _ _ _ Es) as [call E].
  exists call. now rewrite <- E.
Qed.

(** X15. [buildProvider] leaves the configuration as it found it unless
    the provider is "aws-sd" and the registry neither "noop" nor
    "aws-sd". *)
Theorem buildProvider_keeps_cfg (cfg : Config) (domainFilter : Filter) :
  Provider cfg <> "aws-sd"
  \/ externaldns.Registry cfg = "noop"
  \/ externaldns.Registry cfg = "aws-sd" ->
  fst (buildProvider cfg domainFilter) = cfg.
Proof.
  intros H.
  rewrite (buildProvider_cfg newProvider NewCachedProvider
             instancePrincipalConfig LoadOCIConfig setZoneCacheDuration
             NewOCIProvider).
  destruct H as [H | [H | H]].
  - apply String.eqb_neq in H. now rewrite H.
  - rewrite H. cbn. now rewrite andb_false_r.
  - rewrite H. cbn. now rewrite andb_false_r.
Qed.

(** X16. For a provider name that the switch of [buildProvider] does not
    know, [buildProvider] returns no provider and the error "unknown dns
    provider: <name>", also when a provider cache time is configured; and
    [Execute], its start-up having come that far, ends in [log.Fatal]
    with that error before it has done anything. *)
Theorem unknown_provider_is_fatal (cfg : Config) :
  ~ In (Provider cfg) ("aws-sd" :: "inmemory" :: "oci" :: constructed_providers) ->
  (forall domainFilter,
      buildProvider cfg domainFilter
      = (cfg, Completes (None, Some ("unknown dns provider: " +:+ Provider cfg))))
  /\ (forall args,
        ParseFlags NewConfig args = (cfg, None) ->
        ValidateConfig cfg = None ->
        ParseLevel (LogLevel cfg) = None ->
        snd (buildSource cfg) = None ->
        Execute args
        = ([], LogFatal ("unknown dns provider: " +:+ Provider cfg))).
Proof.
  intros Hno.
  assert (Hbuild : forall domainFilter,
             buildProvider cfg domainFilter
             = (cfg, Completes (None,
                  Some ("unknown dns provider: " +:+ Provider cfg)))).
  { intros domainFilter. unfold controller.buildProvider.
    destruct (String.eqb_spec (Provider cfg) "aws-sd") as [E | _].
    { exfalso. apply Hno. rewrite E. now left. }
    destruct (String.eqb_spec (Provider cfg) "inmemory") as [E | _].
    { exfalso. apply Hno. rewrite E. right. now left. }
    destruct (String.eqb_spec (Provider cfg) "oci") as [E | _].
    { exfalso. apply Hno. rewrite E. right. right. now left. }
    rewrite bool_decide_eq_false_2; [reflexivity |].
    intros H. apply Hno. do 3 right. now apply list_elem_of_In. }
  split; [exact Hbuild |].
  intros args Hparse Hval Hlvl Hsrc.
  unfold controller.Execute. rewrite Hparse, Hval.
  unfold controller.configureLogger. rewrite Hlvl.
  destruct (buildSource cfg) as [src serr]. simpl in Hsrc. subst serr.
  now rewrite Hbuild.
Qed.

(** X17. With the provider "oci", [buildProvider] panics exactly when it
    has no OCI configuration to store the zone cache duration in: when
    instance-principal authentication is asked for without a compartment
    OCID (the error prepared for that case is not returned), and when
    [oci.LoadOCIConfig] returns a nil configuration. *)
Theorem oci_panics_without_config (cfg : Config) (domainFilter : Filter) :
  Provider cfg = "oci" ->
  ((exists msg, snd (buildProvider cfg domainFilter) = Panics msg)
   <-> if OCIAuthInstancePrincipal cfg
       then OCICompartmentOCID cfg = ""
       else fst (LoadOCIConfig (OCIConfigFile cfg)) = None).
Proof.
  intros Hp.
  assert (Hsnd : (exists msg, snd (buildProvider cfg domainFilter) = Panics msg)
                 <-> exists msg, buildOCIProvider cfg domainFilter = Panics msg).
  { unfold controller.buildProvider. rewrite Hp.
    change (String.eqb "oci" "aws-sd") with false.
    change (String.eqb "oci" "inmemory") with false.
    change (String.eqb "oci" "oci") with true. cbv iota.
    destruct (buildOCIProvider cfg domainFilter) as [[q qerr] | m]; cbn [snd].
    - split; intros [msg H]; discriminate H.
    - split; intros _; eauto. }
  rewrite Hsnd. unfold controller.buildOCIProvider.
  destruct (OCIAuthInstancePrincipal cfg).
  - destruct (OCICompartmentOCID cfg) as [|c ocid]; cbn.
    + split; [reflexivity | eauto].
    + split; [intros [msg H]; discriminate H | intros H; discriminate H].
  - destruct (LoadOCIConfig (OCIConfigFile cfg)) as [[config|] err]; cbn [fst].
    + split; [| intros H; discriminate H].
      intros [msg H]. destruct err; discriminate H.
    + split; [reflexivity | eauto].
Qed.

(** X18. With the provider "aws-sd", the registry that [selectRegistry]
    builds from the configuration that [buildProvider] leaves is the noop
    registry when "noop" was configured and the AWS-SD registry for every
    other configured name: never another registry, and never the fatal
    exit for an unknown name. *)
Theorem aws_sd_registry_is_noop_or_aws_sd (cfg : Config)
    (domainFilter : Filter) (p : option ProviderT) :
  Provider cfg = "aws-sd" ->
  selectRegistry (fst (buildProvider cfg domainFilter)) p
  = Returns (newRegistry
               (if String.eqb (externaldns.Registry cfg) "noop"
                then NewNoopRegistry p
                else NewAWSSDRegistry p (TXTOwnerID cfg))).
Proof.
  intros Hp.
  rewrite (buildProvider_cfg newProvider NewCachedProvider
             instancePrincipalConfig LoadOCIConfig setZoneCacheDuration
             NewOCIProvider), Hp.
  change (String.eqb "aws-sd" "aws-sd") with true. cbn [andb].
  destruct (String.eqb_spec (externaldns.Registry cfg) "noop") as [E | N].
  - cbn [negb andb]. unfold controller.selectRegistry. rewrite E. reflexivity.
  - destruct (String.eqb_spec (externaldns.Registry cfg) "aws-sd") as [E | N'];
      cbn [negb andb]; unfold controller.selectRegistry.
    + rewrite E. reflexivity.
    + reflexivity.
Qed.

(** X20. In webhook-server mode [Execute], once its provider is built,
    serves the webhook API with that provider and exits with status 0: it
    builds no controller and looks neither at the policy nor at the
    registry. *)
Theorem Execute_webhook_server (args : list string) (cfg : Config)
    (prvdr : option ProviderT) :
  ParseFlags NewConfig args = (cfg, None) ->
  ValidateConfig cfg = None ->
  ParseLevel (LogLevel cfg) = None ->
  snd (buildSource cfg) = None ->
  snd (buildProvider cfg (createDomainFilter cfg)) = Completes (prvdr, None) ->
  WebhookServer cfg = true ->
  Execute args = ([StartHTTPApi prvdr], OsExit 0).
Proof.
  intros Hparse Hval Hlvl Hsrc Hprov Hweb.
  unfold controller.Execute. rewrite Hparse, Hval.
  unfold controller.configureLogger. rewrite Hlvl.
  destruct (buildSource cfg) as [src serr]. simpl in Hsrc. subst serr.
  pose proof (buildProvider_WebhookServer newProvider NewCachedProvider
                instancePrincipalConfig LoadOCIConfig setZoneCacheDuration
                NewOCIProvider cfg (createDomainFilter cfg)) as HW.
  destruct (buildProvider cfg (createDomainFilter cfg)) as [cfg' done].
  simpl in Hprov, HW. subst done. now rewrite HW, Hweb.
Qed.

(** X21. [Execute] builds the controller from the configuration as
    [buildProvider] left it: with the provider "aws-sd" and a configured
    registry other than "noop" (the default "txt", say), the controller
    that it schedules and runs has the AWS-SD registry, built for the
    provider just made and the configured owner. *)
Theorem Execute_runs_aws_sd_registry (args : list string) (cfg : Config)
    (src : option SourceT) (prvdr : option ProviderT)
    (policy : plan.Policy) (reg : option RegistryT) :
  ParseFlags NewConfig args = (cfg, None) ->
  ValidateConfig cfg = None ->
  ParseLevel (LogLevel cfg) = None ->
  buildSource cfg = (src, None) ->
  Provider cfg = "aws-sd" ->
  externaldns.Registry cfg <> "noop" ->
  snd (buildProvider cfg (createDomainFilter cfg)) = Completes (prvdr, None) ->
  WebhookServer cfg = false ->
  Once cfg = false ->
  Policies !! externaldns.Policy cfg = Some policy ->
  newRegistry (NewAWSSDRegistry prvdr (TXTOwnerID cfg)) = (reg, None) ->
  let ctrl :=
    {| Source := src;
       Registry := reg;
       Policy := policy;
       Interval := externaldns.Interval cfg;
       DomainFilter := createDomainFilter cfg;
       ManagedRecordTypes := ManagedDNSRecordTypes cfg;
       ExcludeRecordTypes := ExcludeDNSRecordTypes cfg;
       MinEventSyncInterval := externaldns.MinEventSyncInterval cfg |} in
  Execute args
  = ((if UpdateEvents cfg then [AddEventHandler ctrl] else [])
       ++ [ScheduleRunOnce ctrl; Run ctrl],
     Return).
Proof.
  intros Hparse Hval Hlvl Hsrc Hp Hnoop Hprov Hweb Honce Hpol Hreg ctrl.
  unfold controller.Execute. rewrite Hparse, Hval.
  unfold controller.configureLogger. rewrite Hlvl, Hsrc.
  pose proof (buildProvider_cfg newProvider NewCachedProvider
                instancePrincipalConfig LoadOCIConfig setZoneCacheDuration
                NewOCIProvider cfg (createDomainFilter cfg)) as Hcfg.
  destruct (buildProvider cfg (createDomainFilter cfg)) as [cfg' done].
  cbn [fst snd] in Hprov, Hcfg. subst done.
  assert (Hsel : selectRegistry cfg' prvdr
                 = Returns (newRegistry
                              (NewAWSSDRegistry prvdr (TXTOwnerID cfg)))).
  { rewrite Hcfg, Hp. change (String.eqb "aws-sd" "aws-sd") with true.
    cbn [andb]. rewrite (proj2 (String.eqb_neq _ _) Hnoop).
    destruct (String.eqb_spec (externaldns.Registry cfg) "aws-sd") as [E | N];
      cbn [negb andb]; unfold controller.selectRegistry;
      [rewrite E |]; reflexivity. }
  assert (Hfields : WebhookServer cfg' = WebhookServer cfg
                    /\ Once cfg' = Once cfg
                    /\ UpdateEvents cfg' = UpdateEvents cfg
                    /\ externaldns.Policy cfg' = externaldns.Policy cfg
                    /\ externaldns.Interval cfg' = externaldns.Interval cfg
                    /\ externaldns.MinEventSyncInterval cfg'
                       = externaldns.MinEventSyncInterval cfg
                    /\ ManagedDNSRecordTypes cfg' = ManagedDNSRecordTypes cfg
                    /\ ExcludeDNSRecordTypes cfg' = ExcludeDNSRecordTypes cfg).
  { rewrite Hcfg. destruct (_ && _); repeat split. }
  destruct Hfields as (HW & HO & HU & HP & HI & HM & HMa & HEx).
  rewrite HW, Hweb. unfold controller.buildController.
  rewrite HP, Hpol, Hsel, Hreg.
  rewrite HO, Honce, HU, HI, HM, HMa, HEx. reflexivity.
Qed.

End StartupFacts.

(* ===================================================================== *)
(** * The properties at work on sample inputs *)
(* ===================================================================== *)

Section Instances.
Import endpoint plan.

(** The planner on the scenarios of the design document: a desired
    endpoint that does not exist yet is created... *)
Example plan_scenario_create :
  samples.Calculate SyncPolicy [] [samples.record "new.foo.com" "target" ""]
  = {| Create := [samples.record "new.foo.com" "target" ""];
       UpdateOld := []; UpdateNew := []; Delete := [] |}.
Proof. vm_compute. reflexivity. Qed.

(** ... an owned record that is not desired any more is deleted... *)
Example plan_scenario_delete :
  samples.Calculate SyncPolicy [samples.record "test.foo.com" "2.2.2.2" "me"] []
  = {| Create := []; UpdateOld := []; UpdateNew := [];
       Delete := [samples.record "test.foo.com" "2.2.2.2" "me"] |}.
Proof. vm_compute. reflexivity. Qed.

(** ... and a record of another owner is left alone. *)
Example plan_scenario_foreign :
  samples.Calculate SyncPolicy
    [samples.record "test.foo.com" "2.2.2.2" "other"]
    [samples.record "Test.Foo.com." "3.3.3.3" ""]
  = no_changes.
Proof. vm_compute. reflexivity. Qed.

(** An owned record is updated; the owner label stays on the new side. *)
Example plan_scenario_update :
  samples.Calculate SyncPolicy
    [samples.record "test.foo.com" "2.2.2.2" "me"]
    [samples.record "test.foo.com" "3.3.3.3" ""]
  = {| Create := [];
       UpdateOld := [samples.record "test.foo.com" "2.2.2.2" "me"];
       UpdateNew := [samples.record "test.foo.com" "3.3.3.3" "me"];
       Delete := [] |}.
Proof. vm_compute. reflexivity. Qed.





(** The retry bound at work: three attempts of a call that always fails
    with an error of the rate-limit type; two of the mock's call that
    fails once, out of a budget of five; and the mock's own counts with
    the budgets of the two tests. *)
Lemma retry_attempts_bounded_witness :
  (let out := ns1.retryWithBackoff samples.isRateLimitError (samples.ns1_provider 3)
                (ns1.counted samples.throttled)
                {| ns1.client := (tt, 0%nat); ns1.slept := [] |} in
   Z.of_nat (snd (ns1.client (snd out))) = 3%Z /\ is_Some (fst out))
  /\ (let out := ns1.retryWithBackoff (fun _ => false) (samples.ns1_provider 5)
                   (ns1.counted ns1.CreateRecord)
                   {| ns1.client := ({| ns1.createAttempts := 0;
                                        ns1.alwaysRateLimit := false |}, 0%nat);
                      ns1.slept := [] |} in
      snd (ns1.client (snd out)) = 2%nat /\ fst out = None)
  /\ (let out := ns1.retryWithBackoff (fun _ => false) (samples.ns1_provider 3)
                   ns1.CreateRecord
                   {| ns1.client := {| ns1.createAttempts := 0;
                                       ns1.alwaysRateLimit := true |};
                      ns1.slept := [] |} in
      ns1.createAttempts (ns1.client (snd out)) = 3%Z /\ is_Some (fst out))
  /\ (let out := ns1.retryWithBackoff (fun _ => false) (samples.ns1_provider 5)
                   ns1.CreateRecord
                   {| ns1.client := {| ns1.createAttempts := 0;
                                       ns1.alwaysRateLimit := false |};
                      ns1.slept := [] |} in
      ns1.createAttempts (ns1.client (snd out)) = 2%Z /\ fst out = None).
Proof.
  split; [| split; [| split]].
  - apply (proj1 (retry_attempts_bounded samples.isRateLimitError
                    (samples.ns1_provider 3) samples.throttled tt [])
             (fun _ => True)).
    + exact I.
    + intros c _. split; [| exact I].
      exists "throttled". split; [reflexivity | right; reflexivity].
    + simpl. lia.
  - apply (proj1 (proj2 (retry_attempts_bounded (fun _ => false)
                           (samples.ns1_provider 5) ns1.CreateRecord
                           {| ns1.createAttempts := 0;
                              ns1.alwaysRateLimit := false |} []))).
    + exists "rate limit exceeded". split; [reflexivity | left].
      exists {| ns1.StatusCode := ns1.StatusTooManyRequests |}.
      split; reflexivity.
    + reflexivity.
    + simpl. lia.
  - apply (proj1 (proj2 (proj2 (retry_attempts_bounded (fun _ => false)
                                  (samples.ns1_provider 3) samples.throttled
                                  tt [])))).
    simpl. lia.
  - apply (proj2 (proj2 (proj2 (retry_attempts_bounded (fun _ => false)
                                  (samples.ns1_provider 5) samples.throttled
                                  tt [])))).
    simpl. lia.
Defined.

(** The TTL of the records built from the two changes of the test. *)
Lemma ns1BuildRecord_ttl_witness :
  ns1.TTL (ns1.ns1BuildRecord (samples.ns1_provider 5) "foo.com" samples.change)
  = 300%Z
  /\ ns1.TTL (ns1.ns1BuildRecord (samples.ns1_provider 5) "foo.com"
                samples.changeWithTTL)
     = 3600%Z.
Proof.
  split.
  - apply (proj1 (ns1BuildRecord_ttl (samples.ns1_provider 5) "foo.com"
                    samples.change eq_refl)).
    reflexivity.
  - apply (proj2 (ns1BuildRecord_ttl (samples.ns1_provider 5) "foo.com"
                    samples.changeWithTTL eq_refl)).
    reflexivity.
Defined.

(** The policy "bogus": the controller is not built, [Execute] dies of
    it, and in webhook-server mode no reconciliation starts. *)
Lemma unknown_policy_is_fatal_at_startup_witness :
  controller.buildController samples.newRegistry
    (samples.config "inmemory" "txt" "bogus" false)
    (Some "multi") (Some "inmemory") "domains"
  = controller.Returns (inr "unknown policy: bogus")
  /\ samples.Execute (samples.config "inmemory" "txt" "bogus" false) []
     = ([], controller.LogFatal "unknown policy: bogus")
  /\ Forall (fun a => controller.in_loop a = false)
       (fst (samples.Execute (samples.config "inmemory" "txt" "bogus" true) []))
  /\ snd (samples.Execute (samples.config "inmemory" "txt" "bogus" true) [])
     <> controller.Return.
Proof.
  assert (H1 : "bogus" <> "sync") by discriminate.
  assert (H2 : "bogus" <> "upsert-only") by discriminate.
  assert (H3 : "bogus" <> "create-only") by discriminate.
  split; [| split].
  - apply (proj1 (unknown_policy_is_fatal_at_startup
                    samples.newProvider samples.NewCachedProvider
                    samples.instancePrincipalConfig samples.LoadOCIConfig
                    samples.setZoneCacheDuration samples.NewOCIProvider
                    samples.newRegistry samples.NewRegexDomainFilter
                    samples.NewDomainFilterWithExclusions samples.ByNames
                    samples.NewMultiSource samples.NewDedupSource
                    samples.NewNAT64Source samples.NewTargetFilterSource
                    samples.ParseLevel
                    (samples.config "inmemory" "txt" "bogus" false)
                    samples.ParseFlags samples.ValidateConfig samples.runOnce
                    "bogus" H1 H2 H3)).
    reflexivity.
  - apply (proj1 (proj2 (unknown_policy_is_fatal_at_startup
                    samples.newProvider samples.NewCachedProvider
                    samples.instancePrincipalConfig samples.LoadOCIConfig
                    samples.setZoneCacheDuration samples.NewOCIProvider
                    samples.newRegistry samples.NewRegexDomainFilter
                    samples.NewDomainFilterWithExclusions samples.ByNames
                    samples.NewMultiSource samples.NewDedupSource
                    samples.NewNAT64Source samples.NewTargetFilterSource
                    samples.ParseLevel
                    (samples.config "inmemory" "txt" "bogus" false)
                    samples.ParseFlags samples.ValidateConfig samples.runOnce
                    "bogus" H1 H2 H3)) []
                 (samples.config "inmemory" "txt" "bogus" false));
      first [reflexivity | eexists; reflexivity].
  - apply (proj2 (proj2 (unknown_policy_is_fatal_at_startup
                    samples.newProvider samples.NewCachedProvider
                    samples.instancePrincipalConfig samples.LoadOCIConfig
                    samples.setZoneCacheDuration samples.NewOCIProvider
                    samples.newRegistry samples.NewRegexDomainFilter
                    samples.NewDomainFilterWithExclusions samples.ByNames
                    samples.NewMultiSource samples.NewDedupSource
                    samples.NewNAT64Source samples.NewTargetFilterSource
                    samples.ParseLevel
                    (samples.config "inmemory" "txt" "bogus" true)
                    samples.ParseFlags samples.ValidateConfig samples.runOnce
                    "bogus" H1 H2 H3)) []).
    reflexivity.
Defined.

(** The TXT registry configured for AWS Cloud Map. *)
Lemma aws_sd_provider_forces_aws_sd_registry_witness :
  let cfg := samples.config "aws-sd" "txt" "sync" false in
  let cfg' := fst (controller.buildProvider samples.newProvider
                     samples.NewCachedProvider samples.instancePrincipalConfig
                     samples.LoadOCIConfig samples.setZoneCacheDuration
                     samples.NewOCIProvider cfg "domains") in
  cfg' = externaldns.set_Registry "aws-sd" cfg
  /\ externaldns.Registry cfg' = "aws-sd"
  /\ forall p, controller.selectRegistry samples.newRegistry cfg' p
               = controller.Returns
                   (samples.newRegistry (controller.NewAWSSDRegistry p "me")).
Proof.
  apply (aws_sd_provider_forces_aws_sd_registry samples.newProvider
           samples.NewCachedProvider samples.instancePrincipalConfig
           samples.LoadOCIConfig samples.setZoneCacheDuration
           samples.NewOCIProvider samples.newRegistry
           (samples.config "aws-sd" "txt" "sync" false) "domains").
  - reflexivity.
  - simpl. discriminate.
  - simpl. discriminate.
Defined.

(** The suitable types of an IPv4 address, an IPv6 address and a host
    name. *)
Lemma suitableType_by_address_family_witness :
  source.suitableType samples.ParseIP "1.2.3.4" = "A"
  /\ source.suitableType samples.ParseIP "2001:db8::1" = "AAAA"
  /\ source.suitableType samples.ParseIP "lb.example.net" = "CNAME".
Proof.
  assert (Hlen : forall s ip, samples.ParseIP s = Some ip ->
                   length ip = netip.IPv4len \/ length ip = netip.IPv6len).
  { intros s ip. unfold samples.ParseIP.
    destruct (String.eqb s "1.2.3.4"); [intros [= <-]; right; reflexivity |].
    destruct (String.eqb s "2001:db8::1"); [intros [= <-]; right; reflexivity |].
    discriminate. }
  split; [| split].
  - eapply (proj1 (suitableType_by_address_family samples.ParseIP Hlen "1.2.3.4")).
    + reflexivity.
    + vm_compute. eauto.
  - eapply (proj1 (proj2 (suitableType_by_address_family samples.ParseIP Hlen
                            "2001:db8::1"))).
    + reflexivity.
    + vm_compute. reflexivity.
  - apply (proj2 (proj2 (suitableType_by_address_family samples.ParseIP Hlen
                           "lb.example.net"))).
    reflexivity.
Defined.

(** A host name with a trailing dot, and an annotation with two targets,
    one of them with a trailing dot. *)
Lemma trailing_dot_trimmed_at_source_witness :
  Forall (fun ep => DNSName ep = "foo.example.org")
    (source.endpointsForHostname samples.ParseIP samples.isIPv6String ∅
       "foo.example.org." ["1.2.3.4"; "lb.example.net"] 300%Z [] "")
  /\ Forall2 (fun piece target =>
                (forall h, piece = h +:+ "." -> target = h)
                /\ ((forall h, piece <> h +:+ ".") -> target = piece))
       ["a.example.org."; "b.example.org"]
       (source.getTargetsFromTargetAnnotation samples.targetAnnotationKey
          {[ samples.targetAnnotationKey := "a.example.org., b.example.org" ]}).
Proof.
  pose proof (trailing_dot_trimmed_at_source samples.ParseIP samples.isIPv6String
                samples.targetAnnotationKey ∅
                "foo.example.org." ["1.2.3.4"; "lb.example.net"] 300%Z [] ""
                {[ samples.targetAnnotationKey := "a.example.org., b.example.org" ]})
    as [Hname Htargets].
  split.
  - eapply List.Forall_impl; [| exact Hname].
    intros ep [Hdot _]. apply Hdot. reflexivity.
  - apply (Htargets "a.example.org., b.example.org").
    + reflexivity.
    + discriminate.
Defined.

(** The annotation of blanks only gives one empty target, not none. *)
Lemma getTargetsFromTargetAnnotation_none_iff_witness :
  source.getTargetsFromTargetAnnotation samples.targetAnnotationKey
    {[ samples.targetAnnotationKey := "" ]} = []
  /\ source.getTargetsFromTargetAnnotation samples.targetAnnotationKey
       {[ samples.targetAnnotationKey := "  " ]} <> [].
Proof.
  split.
  - apply (proj2 (getTargetsFromTargetAnnotation_none_iff
                    samples.targetAnnotationKey
                    {[ samples.targetAnnotationKey := "" ]})).
    right. reflexivity.
  - intros H.
    apply (proj1 (getTargetsFromTargetAnnotation_none_iff
                    samples.targetAnnotationKey
                    {[ samples.targetAnnotationKey := "  " ]})) in H.
    destruct H as [H | H]; vm_compute in H; discriminate H.
Defined.

(** Two targets for an annotation with one comma. *)
Lemma getTargetsFromTargetAnnotation_targets_witness :
  length (source.getTargetsFromTargetAnnotation samples.targetAnnotationKey
            samples.annotations) = 2%nat.
Proof.
  apply (proj2 (getTargetsFromTargetAnnotation_targets
                  samples.targetAnnotationKey samples.annotations)
           "a.example.org., b.example.org").
  - reflexivity.
  - discriminate.
Defined.

(** The empty internal-hostname annotation gives the empty host name. *)
Lemma getInternalHostnamesFromAnnotations_none_iff_witness :
  source.getInternalHostnamesFromAnnotations
    samples.internalHostnameAnnotationKey
    {[ samples.internalHostnameAnnotationKey := "" ]} = [""].
Proof.
  apply (proj2 (getInternalHostnamesFromAnnotations_none_iff
                  samples.internalHostnameAnnotationKey
                  {[ samples.internalHostnameAnnotationKey := "" ]})).
  reflexivity.
Defined.

(** The set identifier of the sample annotations, visited back to front. *)
Lemma getProviderSpecificAnnotations_setIdentifier_witness :
  snd (source.getProviderSpecificAnnotations_in samples.aliasAnnotationKey
         (rev (map_to_list samples.annotations)) samples.annotations)
  = "blue".
Proof.
  apply (getProviderSpecificAnnotations_setIdentifier samples.aliasAnnotationKey
           (rev (map_to_list samples.annotations)) samples.annotations).
  symmetry. apply Permutation_rev.
Defined.

(** The same annotations visited in the order of the map and back to
    front. *)
Lemma getProviderSpecificAnnotations_order_witness :
  snd (source.getProviderSpecificAnnotations_in samples.aliasAnnotationKey
         (map_to_list samples.annotations) samples.annotations)
  = snd (source.getProviderSpecificAnnotations_in samples.aliasAnnotationKey
           (rev (map_to_list samples.annotations)) samples.annotations)
  /\ exists looped looped',
      fst (source.getProviderSpecificAnnotations_in samples.aliasAnnotationKey
             (map_to_list samples.annotations) samples.annotations)
      = source.fixed_properties samples.aliasAnnotationKey samples.annotations
          ++ looped
      /\ fst (source.getProviderSpecificAnnotations_in samples.aliasAnnotationKey
                (rev (map_to_list samples.annotations)) samples.annotations)
         = source.fixed_properties samples.aliasAnnotationKey samples.annotations
             ++ looped'
      /\ looped ≡ₚ looped'.
Proof.
  apply (getProviderSpecificAnnotations_order samples.aliasAnnotationKey
           (map_to_list samples.annotations)
           (rev (map_to_list samples.annotations)) samples.annotations).
  - reflexivity.
  - symmetry. apply Permutation_rev.
Defined.

(** The AWS weight of the sample annotations. *)
Lemma getProviderSpecificAnnotations_prefixed_witness :
  In {| endpoint.Name := "aws/weight"; endpoint.Value := "10" |}
    (fst (source.getProviderSpecificAnnotations samples.aliasAnnotationKey
            samples.annotations)).
Proof.
  apply (proj1 (getProviderSpecificAnnotations_prefixed
                  samples.aliasAnnotationKey
                  (map_to_list samples.annotations) samples.annotations
                  "weight" "10" (reflexivity _))).
  reflexivity.
Defined.

(** No endpoint for an address that the IPv6 check contradicts. *)
Lemma endpointsForHostname_none_iff_witness :
  source.endpointsForHostname samples.ParseIP (fun _ => true) ∅
    "foo.example.org" ["1.2.3.4"] 300%Z [] "" = [].
Proof.
  apply (proj2 (endpointsForHostname_none_iff samples.ParseIP (fun _ => true) ∅
                  "foo.example.org" ["1.2.3.4"] 300%Z [] "")).
  repeat constructor.
Defined.

(** An unknown registry name. *)
Lemma selectRegistry_fatal_iff_witness :
  exists msg,
    controller.selectRegistry samples.newRegistry
      (samples.config "inmemory" "bogus" "sync" false) (Some "inmemory")
    = controller.Fatal msg.
Proof.
  apply (proj2 (proj1 (selectRegistry_fatal_iff samples.newRegistry
                         (samples.config "inmemory" "bogus" "sync" false)
                         (Some "inmemory")))).
  repeat split; discriminate.
Defined.

(** The controller of the in-memory provider with the TXT registry. *)
Lemma buildController_builds_witness :
  let ctrl :=
    {| controller.Source := Some "multi";
       controller.Registry := Some "txt";
       controller.Policy := SyncPolicy;
       controller.Interval := 60;
       controller.DomainFilter := "domains";
       controller.ManagedRecordTypes := ["A"; "AAAA"; "CNAME"];
       controller.ExcludeRecordTypes := [];
       controller.MinEventSyncInterval := 5 |} in
  Policies !! "sync" = Some (controller.Policy ctrl)
  /\ exists call, samples.newRegistry call = (controller.Registry ctrl, None).
Proof.
  intros ctrl.
  destruct (buildController_builds samples.newRegistry
              (samples.config "inmemory" "txt" "sync" false)
              (Some "multi") (Some "inmemory") "domains" ctrl (reflexivity _))
    as (Hpol & Hreg & _).
  split; [exact Hpol | exact Hreg].
Defined.

(** The in-memory provider leaves the configuration alone. *)
Lemma buildProvider_keeps_cfg_witness :
  fst (samples.buildProvider (samples.config "inmemory" "txt" "sync" false)
         "domains")
  = samples.config "inmemory" "txt" "sync" false.
Proof.
  apply (buildProvider_keeps_cfg samples.newProvider samples.NewCachedProvider
           samples.instancePrincipalConfig samples.LoadOCIConfig
           samples.setZoneCacheDuration samples.NewOCIProvider
           (samples.config "inmemory" "txt" "sync" false) "domains").
  left. discriminate.
Defined.

(** A provider name that the switch does not know. *)
Lemma unknown_provider_is_fatal_witness :
  samples.buildProvider (samples.config "bogus" "txt" "sync" false) "domains"
  = (samples.config "bogus" "txt" "sync" false,
     controller.Completes (None, Some "unknown dns provider: bogus"))
  /\ samples.Execute (samples.config "bogus" "txt" "sync" false) []
     = ([], controller.LogFatal "unknown dns provider: bogus").
Proof.
  assert (Hno : ~ In "bogus"
                  ("aws-sd" :: "inmemory" :: "oci"
                     :: controller.constructed_providers)).
  { intros H. vm_compute in H.
    repeat (destruct H as [H | H]; [discriminate H |]). exact H. }
  destruct (unknown_provider_is_fatal
              samples.newProvider samples.NewCachedProvider
              samples.instancePrincipalConfig samples.LoadOCIConfig
              samples.setZoneCacheDuration samples.NewOCIProvider
              samples.newRegistry samples.NewRegexDomainFilter
              samples.NewDomainFilterWithExclusions samples.ByNames
              samples.NewMultiSource samples.NewDedupSource
              samples.NewNAT64Source samples.NewTargetFilterSource
              samples.ParseLevel
              (samples.config "bogus" "txt" "sync" false)
              samples.ParseFlags samples.ValidateConfig samples.runOnce
              (samples.config "bogus" "txt" "sync" false) Hno)
    as [Hbuild Hexec].
  split; [apply Hbuild | apply Hexec; reflexivity].
Defined.

(** Instance-principal authentication without a compartment. *)
Lemma oci_panics_without_config_witness :
  exists msg,
    snd (samples.buildProvider samples.oci_config "domains")
    = controller.Panics msg.
Proof.
  apply (proj2 (oci_panics_without_config
                  samples.newProvider samples.NewCachedProvider
                  samples.instancePrincipalConfig samples.LoadOCIConfig
                  samples.setZoneCacheDuration samples.NewOCIProvider
                  samples.oci_config "domains" (reflexivity _))).
  reflexivity.
Defined.

(** AWS Cloud Map with the noop registry configured. *)
Lemma aws_sd_registry_is_noop_or_aws_sd_witness :
  controller.selectRegistry samples.newRegistry
    (fst (samples.buildProvider (samples.config "aws-sd" "noop" "sync" false)
            "domains"))
    (Some "aws-sd")
  = controller.Returns (Some "noop", None).
Proof.
  apply (aws_sd_registry_is_noop_or_aws_sd
           samples.newProvider samples.NewCachedProvider
           samples.instancePrincipalConfig samples.LoadOCIConfig
           samples.setZoneCacheDuration samples.NewOCIProvider
           samples.newRegistry
           (samples.config "aws-sd" "noop" "sync" false) "domains"
           (Some "aws-sd")).
  reflexivity.
Defined.

(** The webhook server with a policy and a registry that do not exist. *)
Lemma Execute_webhook_server_witness :
  samples.Execute (samples.config "inmemory" "bogus" "bogus" true) []
  = ([controller.StartHTTPApi (Some "inmemory")], controller.OsExit 0).
Proof.
  apply (Execute_webhook_server
           samples.newProvider samples.NewCachedProvider
           samples.instancePrincipalConfig samples.LoadOCIConfig
           samples.setZoneCacheDuration samples.NewOCIProvider
           samples.newRegistry samples.NewRegexDomainFilter
           samples.NewDomainFilterWithExclusions samples.ByNames
           samples.NewMultiSource samples.NewDedupSource
           samples.NewNAT64Source samples.NewTargetFilterSource
           samples.ParseLevel
           (samples.config "inmemory" "bogus" "bogus" true)
           samples.ParseFlags samples.ValidateConfig samples.runOnce
           [] (samples.config "inmemory" "bogus" "bogus" true)
           (Some "inmemory")); reflexivity.
Defined.

(** AWS Cloud Map with the TXT registry configured: the controller that
    runs has the AWS-SD registry. *)
Lemma Execute_runs_aws_sd_registry_witness :
  let ctrl :=
    {| controller.Source := Some "multi";
       controller.Registry := Some "aws-sd";
       controller.Policy := SyncPolicy;
       controller.Interval := 60;
       controller.DomainFilter := "domains";
       controller.ManagedRecordTypes := ["A"; "AAAA"; "CNAME"];
       controller.ExcludeRecordTypes := [];
       controller.MinEventSyncInterval := 5 |} in
  samples.Execute (samples.config "aws-sd" "txt" "sync" false) []
  = ([controller.AddEventHandler ctrl; controller.ScheduleRunOnce ctrl;
      controller.Run ctrl],
     controller.Return).
Proof.
  apply (Execute_runs_aws_sd_registry
           samples.newProvider samples.NewCachedProvider
           samples.instancePrincipalConfig samples.LoadOCIConfig
           samples.setZoneCacheDuration samples.NewOCIProvider
           samples.newRegistry samples.NewRegexDomainFilter
           samples.NewDomainFilterWithExclusions samples.ByNames
           samples.NewMultiSource samples.NewDedupSource
           samples.NewNAT64Source samples.NewTargetFilterSource
           samples.ParseLevel
           (samples.config "aws-sd" "txt" "sync" false)
           samples.ParseFlags samples.ValidateConfig samples.runOnce
           [] (samples.config "aws-sd" "txt" "sync" false)
           (Some "multi") (Some "aws-sd") SyncPolicy (Some "aws-sd"));
    first [reflexivity | discriminate].
Defined.

End Instances.
